(** * A unified trading client: the shared exchange layer

    A shallow embedding of the TypeScript sources
      - [errors/ExchangeError.ts]   the four error classes,
      - [utils/request.ts]          [makeRequest],
      - [types/exchange.types.ts]   the domain records,
      - [base/BaseExchange.ts]      validation, normalization, order closing,
      - [exchanges/Hyperliquid.ts]  [createOrder], [modifyOrder],
                                    [cancelOrder], [transformOrder],
    followed by the properties proved about them.

    Conventions of the embedding.
      - A JavaScript [number] is an IEEE 754 binary64 value: Rocq's primitive
        [float], with [PrimFloat.mul], [PrimFloat.ltb], [PrimFloat.leb].
      - A property that may be missing at run time ([undefined]) is an
        [option]; the truthiness tests of the source ([!x], [x || d]) are
        written out on it.
      - Strings are [string]; [toLowerCase] is modelled on the ASCII range
        (other characters are left as they are).
      - An [async] method is a computation in the monad [M] below: it reads
        and changes the state of the exchange, returns or throws, and leaves
        the list of adapter calls it made. *)

From Stdlib Require Import Bool List String Ascii ZArith Lia.
From Stdlib Require Import DecimalString PrimFloat.
From Stdlib Require Import SpecFloat FloatOps FloatAxioms.
Import ListNotations.

Local Open Scope string_scope.

(** Decimal literals such as [0.1] denote the nearest binary64 value, as they
    do in JavaScript. *)
#[local] Set Warnings "-inexact-float".

(** ** JavaScript values and operators used by the sources *)

(** [s || d] on a possibly missing string: the empty string is falsy. *)
Definition orElse (s : option string) (d : string) : string :=
  match s with
  | Some (String c r) => String c r
  | _ => d
  end.

(** [!!s] on a possibly missing string. *)
Definition truthyString (s : option string) : bool :=
  match s with
  | Some (String _ _) => true
  | _ => false
  end.

(** [!x] on a number: [+0], [-0] and [NaN] are falsy. *)
Definition falsyNumber (x : float) : bool :=
  PrimFloat.eqb x 0%float || negb (PrimFloat.eqb x x).

(** A value interpolated in a template literal. *)
Definition interpolate (s : option string) : string :=
  match s with
  | Some v => v
  | None => "undefined"
  end.

(** [`${n}`] for an integral number such as an HTTP status. *)
Definition integerToString (z : Z) : string :=
  NilZero.string_of_int (Z.to_int z).

(** [s.toLowerCase()] on text in ASCII, where it maps the letters A to Z
    and nothing else.  A character above 127 is kept as it is, while
    JavaScript maps some of them as well (the Kelvin sign U+212A to k):
    a statement about text that no check has confined to ASCII carries
    [isASCII]. *)
Definition lowerChar (c : ascii) : ascii :=
  let n := nat_of_ascii c in
  if (65 <=? n)%nat && (n <=? 90)%nat then ascii_of_nat (n + 32) else c.

Fixpoint toLowerCase (s : string) : string :=
  match s with
  | EmptyString => EmptyString
  | String c r => String (lowerChar c) (toLowerCase r)
  end.

(** [hay.includes(needle)] on strings. *)
Fixpoint includes (needle hay : string) : bool :=
  if String.prefix needle hay then true
  else match hay with
       | EmptyString => false
       | String _ r => includes needle r
       end.

(** [list.includes(x)] on an array of strings. *)
Definition arrayIncludes (l : list string) (x : string) : bool :=
  existsb (String.eqb x) l.

(** [s.split(sep)] for a one-character separator. *)
Fixpoint split (sep : ascii) (s : string) : list string :=
  match s with
  | EmptyString => [EmptyString]
  | String c r =>
      if Ascii.eqb c sep then EmptyString :: split sep r
      else match split sep r with
           | [] => [String c EmptyString]
           | h :: t => String c h :: t
           end
  end.

(** ** errors/ExchangeError.ts *)

Module Errors.

(** The class of an instance.  [AuthenticationError],
    [InsufficientFundsError] and [InvalidOrderError] extend
    [ExchangeError]. *)
Inductive ErrorClass : Set :=
| ExchangeError
| AuthenticationError
| InsufficientFundsError
| InvalidOrderError.

Record TaxonomyError : Set := {
  cls : ErrorClass;
  name : string;
  message : string;
  code : option string;
  httpStatus : option Z
}.

(** [new ExchangeError(message, code?, httpStatus?)] *)
Definition newExchangeError (message : string) (code : option string)
    (httpStatus : option Z) : TaxonomyError :=
  {| cls := ExchangeError; name := "ExchangeError"; message := message;
     code := code; httpStatus := httpStatus |}.

(** [new AuthenticationError(message)] *)
Definition newAuthenticationError (message : string) : TaxonomyError :=
  {| cls := AuthenticationError; name := "AuthenticationError";
     message := message; code := Some "AUTH_ERROR";
     httpStatus := Some 401%Z |}.

(** [new InsufficientFundsError(message)] *)
Definition newInsufficientFundsError (message : string) : TaxonomyError :=
  {| cls := InsufficientFundsError; name := "InsufficientFundsError";
     message := message; code := Some "INSUFFICIENT_FUNDS";
     httpStatus := Some 400%Z |}.

(** [new InvalidOrderError(message)] *)
Definition newInvalidOrderError (message : string) : TaxonomyError :=
  {| cls := InvalidOrderError; name := "InvalidOrderError";
     message := message; code := Some "INVALID_ORDER";
     httpStatus := Some 400%Z |}.

Definition ErrorClass_eqb (a b : ErrorClass) : bool :=
  match a, b with
  | ExchangeError, ExchangeError
  | AuthenticationError, AuthenticationError
  | InsufficientFundsError, InsufficientFundsError
  | InvalidOrderError, InvalidOrderError => true
  | _, _ => false
  end.

(** Anything a [throw] or a rejected promise can carry ([unknown] in a
    catch clause):
    - an instance of one of the four classes above;
    - another instance of [Error] (a [TypeError], a system error), with
      its message and, when ['code' in error], its code;
    - a value that is not an [Error] at all (a string, a plain object),
      with the [message] and [code] properties it may happen to have. *)
Inductive Thrown : Set :=
| Taxonomy (e : TaxonomyError)
| OtherError (message : string) (code : option string)
| NotAnError (message : option string) (code : option string).

(** [error instanceof C] for a subclass [C] of [ExchangeError]. *)
Definition instanceOf (c : ErrorClass) (error : Thrown) : bool :=
  match error with
  | Taxonomy e =>
      match c with
      | ExchangeError => true
      | _ => ErrorClass_eqb (cls e) c
      end
  | _ => false
  end.

(** How a call ends. *)
Inductive Outcome (A : Type) : Type :=
| Returned (a : A)
| Threw (t : Thrown).

Arguments Returned {A} a.
Arguments Threw {A} t.

End Errors.

Import Errors.

(** ** utils/request.ts *)

Module Request.

(** The two properties [makeRequest] reads from the parsed body. *)
Record Body : Set := {
  error : option string;
  code : option string
}.

(** What [await response.json()] gives: it throws, or yields [null], or a
    value whose properties can be read. *)
Inductive Parsed : Set :=
| Unparsable
| JsonNull
| JsonData (data : Body).

Record Response : Set := {
  ok : bool;
  status : Z;
  json : Parsed
}.

(** What [await fetch(finalUrl, ...)] gives. *)
Inductive Fetched : Set :=
| Rejects (reason : Thrown)
| Resolves (response : Response).

(** Reading a property of [null] throws a [TypeError] (V8's wording). *)
Definition nullProperty (prop : string) : Thrown :=
  OtherError ("Cannot read properties of null (reading '" ++ prop ++ "')")
             None.

Definition isCode (data : Body) (c : string) : bool :=
  match code data with
  | Some v => v =? c
  | None => false
  end.

(** The [switch (data.code)] of a non-success response. *)
Definition byResponseCode (url : string) (response : Response)
    (data : Body) : Thrown :=
  if isCode data "INVALID_ORDER" then
    Taxonomy (newInvalidOrderError
                (orElse (error data) "Invalid order parameters"))
  else if isCode data "INSUFFICIENT_FUNDS" then
    Taxonomy (newInsufficientFundsError
                (orElse (error data) "Insufficient funds for the operation"))
  else if isCode data "INVALID_SYMBOL" then
    Taxonomy (newInvalidOrderError
                (orElse (error data) "Invalid trading symbol"))
  else if isCode data "NOT_FOUND" then
    if includes "/orders/" url then
      Taxonomy (newInvalidOrderError (orElse (error data) "Order not found"))
    else
      Taxonomy (newExchangeError (orElse (error data) "Resource not found")
                                 (Some "NOT_FOUND") None)
  else
    Taxonomy (newExchangeError
                (orElse (error data)
                   ("HTTP error! status: " ++
                    integerToString (status response)))
                (Some (orElse (code data) "UNKNOWN_ERROR"))
                (Some (status response))).

(** The body of the outer [try], from the response on. *)
Definition inspect (url : string) (response : Response) : Outcome Body :=
  if negb (ok response) && (status response =? 0)%Z then
    Threw (Taxonomy (newExchangeError "Network error: Unable to reach server"
                                      (Some "NETWORK_ERROR") None))
  else
    match json response with
    | Unparsable =>
        Threw (Taxonomy (newExchangeError "Invalid response format"
                                          (Some "INVALID_RESPONSE") None))
    | JsonNull =>
        if (status response =? 404)%Z then Threw (nullProperty "error")
        else if (status response =? 401)%Z then Threw (nullProperty "error")
        else Threw (nullProperty "code")
    | JsonData data =>
        if (status response =? 404)%Z then
          if includes "/orders/" url then
            Threw (Taxonomy (newInvalidOrderError
                               (orElse (error data) "Order not found")))
          else
            Threw (Taxonomy (newExchangeError
                               (orElse (error data) "Resource not found")
                               (Some "NOT_FOUND") None))
        else if (status response =? 401)%Z || isCode data "AUTH_ERROR" then
          Threw (Taxonomy (newAuthenticationError
                             (orElse (error data) "Authentication failed")))
        else if negb (ok response) || truthyString (error data) then
          Threw (byResponseCode url response data)
        else
          Returned data
    end.

(** [makeRequest(url, method, headers, body)], from the point where the
    awaited [fetch] has settled.  The outer [catch] rethrows the four
    classes and wraps anything else. *)
Definition makeRequest (url : string) (fetched : Fetched) : Outcome Body :=
  let attempt :=
    match fetched with
    | Rejects reason => Threw reason
    | Resolves response => inspect url response
    end in
  match attempt with
  | Returned data => Returned data
  | Threw (Taxonomy e) => Threw (Taxonomy e)
  | Threw (OtherError msg _) =>
      Threw (Taxonomy (newExchangeError msg (Some "NETWORK_ERROR")
                                        (Some 500%Z)))
  | Threw (NotAnError _ _) =>
      Threw (Taxonomy (newExchangeError "Network error"
                                        (Some "NETWORK_ERROR") (Some 500%Z)))
  end.

End Request.

(** ** types/exchange.types.ts

    [side], [type] and [timeInForce] are string unions in the source; the
    validation below lower-cases and tests them at run time, so they are
    strings here, and every field of [OrderParams] that the validation
    tests for presence is optional. *)

Record OrderParams : Set := {
  symbol : option string;
  side : option string;
  type : option string;
  quantity : option float;
  price : option float;
  timeInForce : option string
}.

(** [Order extends OrderParams]. *)
Record Order : Set := {
  params :> OrderParams;
  orderId : option string;
  status : string;
  filledQuantity : float;
  remainingQuantity : float;
  avgPrice : float;
  timestamp : Z
}.

Record Balance : Set := {
  asset : string;
  free : float;
  locked : float;
  total : float
}.

Record Ticker : Set := {
  tickerSymbol : string;
  lastPrice : float;
  bidPrice : float;
  askPrice : float;
  volume24h : float;
  tickerTimestamp : Z
}.

(** ** Asynchronous methods

    A call of an abstract adapter method from the base class is recorded as
    an [Event].  A computation maps the state of the exchange before it to a
    [Run]: how it ended, the state after it, and the adapter calls made, in
    order. *)

Inductive Event : Set :=
| CallGetTicker (symbol : string)
| CallGetBalances
| CallGetOrder (symbol orderId : string)
| CallCancelOrder (symbol orderId : string)
| CallCreateOrder (params : OrderParams).

Record Run (W A : Type) : Type := {
  outcome : Outcome A;
  world : W;
  calls : list Event
}.

Arguments Build_Run {W A} outcome world calls.
Arguments outcome {W A} r.
Arguments world {W A} r.
Arguments calls {W A} r.

Definition M (W A : Type) : Type := W -> Run W A.

Section Async.

Context {W : Type}.

Definition ret {A} (a : A) : M W A :=
  fun w => Build_Run (Returned a) w [].

(** [throw t] *)
Definition throw {A} (t : Thrown) : M W A :=
  fun w => Build_Run (Threw t) w [].

(** [const x = await m; k x] *)
Definition bind {A B} (m : M W A) (k : A -> M W B) : M W B :=
  fun w =>
    let r := m w in
    match outcome r with
    | Returned a =>
        let r' := k a (world r) in
        Build_Run (outcome r') (world r') (calls r ++ calls r')
    | Threw t => Build_Run (Threw t) (world r) (calls r)
    end.

(** [try { await m } catch (error) { handler error }] *)
Definition tryCatch {A} (m : M W A) (handler : Thrown -> M W A) : M W A :=
  fun w =>
    let r := m w in
    match outcome r with
    | Returned a => r
    | Threw t =>
        let r' := handler t (world r) in
        Build_Run (outcome r') (world r') (calls r ++ calls r')
    end.

(** [this.method(...)] for an abstract method of the adapter. *)
Definition invoke {A} (ev : Event) (method : M W A) : M W A :=
  fun w =>
    let r := method w in
    Build_Run (outcome r) (world r) (ev :: calls r).

(** [throw this.handleError(error, defaultMessage)]: [handleError] has
    thrown before the outer [throw] is reached. *)
Definition rethrow {A} (o : Outcome Empty_set) : M W A :=
  match o with
  | Returned never => match never with end
  | Threw t => throw t
  end.

End Async.

Declare Scope async_scope.
Delimit Scope async_scope with async.
Notation "x <- m ;; k" := (bind m (fun x => k))
  (at level 61, m at next level, right associativity) : async_scope.
Notation "m ;; k" := (bind m (fun _ => k))
  (at level 61, right associativity) : async_scope.

(** ** base/BaseExchange.ts *)

Module BaseExchange.

Record ValidateOptions : Set := { skipBalanceCheck : option bool }.

(** [options = {}] *)
Definition defaultOptions : ValidateOptions :=
  {| skipBalanceCheck := None |}.

Definition invalidOrder (msg : string) : Thrown :=
  Taxonomy (newInvalidOrderError msg).

(** [handleError]: its return type is [never], every path ends in
    [throw]. *)
Definition handleError (error : Thrown) (defaultMessage : string)
    : Outcome Empty_set :=
  match error with
  | Taxonomy e => Threw (Taxonomy e)
  | OtherError msg (Some c) =>
      if c =? "AUTH_ERROR" then
        Threw (Taxonomy (newAuthenticationError
                           (orElse (Some msg) "Authentication failed")))
      else if c =? "INVALID_ORDER" then
        Threw (Taxonomy (newInvalidOrderError
                           (orElse (Some msg) "Invalid order parameters")))
      else if c =? "INSUFFICIENT_FUNDS" then
        Threw (Taxonomy (newInsufficientFundsError
                           (orElse (Some msg) "Insufficient funds")))
      else if c =? "NOT_FOUND" then
        Threw (Taxonomy (newInvalidOrderError
                           (orElse (Some msg) "Order not found")))
      else
        Threw (Taxonomy (newExchangeError
                           (orElse (Some msg) defaultMessage) (Some c) None))
  | OtherError msg None =>
      Threw (Taxonomy (newExchangeError
                         (orElse (Some msg) defaultMessage) None None))
  | NotAnError _ _ =>
      Threw (Taxonomy (newExchangeError defaultMessage None None))
  end.

(** [!!order.orderId] *)
Definition hasOrderId (order : Order) : bool :=
  truthyString (orderId order).

Section Methods.

Context {W : Type}.

(** [`${x}`] for a number: JavaScript's Number::toString. *)
Variable numberToString : float -> string.

(** The abstract methods the shared code calls. *)
Variable getTicker : string -> M W Ticker.
Variable getBalances : M W (list Balance).

Local Open Scope async_scope.

(** [if (!field) throw new InvalidOrderError(msg)], after which the
    field is a non-empty string. *)
Definition present (field : option string) (msg : string) : M W string :=
  match field with
  | Some (String c r) => ret (String c r)
  | _ => throw (invalidOrder msg)
  end.

(** [if (!x || x <= 0) throw new InvalidOrderError(msg)] *)
Definition positive (x : option float) (msg : string) : M W float :=
  match x with
  | Some v =>
      if falsyNumber v || PrimFloat.leb v 0%float
      then throw (invalidOrder msg)
      else ret v
  | None => throw (invalidOrder msg)
  end.

Definition getCurrentPrice (symbol : string) : M W float :=
  tryCatch
    (ticker <- invoke (CallGetTicker symbol) (getTicker symbol) ;;
     ret (lastPrice ticker))
    (fun error =>
       rethrow (handleError error
                  ("Failed to get current price for " ++ symbol))).

(** [b.asset === asset], where [asset] may be [undefined]. *)
Definition assetIs (wanted : option string) (b : Balance) : bool :=
  match wanted with
  | Some a => asset b =? a
  | None => false
  end.

Definition getBalance (asset : option string) : M W Balance :=
  tryCatch
    (balances <- invoke CallGetBalances getBalances ;;
     match find (assetIs asset) balances with
     | Some balance => ret balance
     | None =>
         throw (invalidOrder
                  ("Balance not found for asset " ++ interpolate asset))
     end)
    (fun error =>
       rethrow (handleError error
                  ("Failed to get balance for " ++ interpolate asset))).

(** [const [baseAsset, quoteAsset] = symbol.split('-')] and the choice
    between them. *)
Definition requiredAsset (symbol side : string) : option string :=
  let parts := split "-" symbol in
  let baseAsset := nth_error parts 0 in
  let quoteAsset := nth_error parts 1 in
  if side =? "buy" then quoteAsset else baseAsset.

Definition insufficientFunds (asset : option string)
    (requiredAmount available : float) : Thrown :=
  Taxonomy (newInsufficientFundsError
    ("Insufficient " ++ interpolate asset ++ " balance. Required: " ++
     numberToString requiredAmount ++ ", Available: " ++
     numberToString available)).

(** The [try] block of the balance check. *)
Definition balanceCheck (symbol side type : string) (quantity : float)
    (price : option float) : M W unit :=
  let asset := requiredAsset symbol side in
  balance <- getBalance asset ;;
  currentPrice <-
    match price with
    | Some p =>
        if (type =? "market") || falsyNumber p
        then getCurrentPrice symbol
        else ret p
    | None => getCurrentPrice symbol
    end ;;
  let requiredAmount :=
    if side =? "buy" then PrimFloat.mul quantity currentPrice
    else quantity in
  if PrimFloat.ltb (free balance) requiredAmount
  then throw (insufficientFunds asset requiredAmount (free balance))
  else ret tt.

Definition validateOrder (params : OrderParams)
    (options : ValidateOptions) : M W unit :=
  sym <- present (symbol params) "Symbol is required" ;;
  sd <- present (side params) "Side is required" ;;
  ty <- present (type params) "Type is required" ;;
  qty <- positive (quantity params) "Quantity must be greater than 0" ;;
  (if arrayIncludes ["buy"; "sell"] (toLowerCase sd) then ret tt
   else throw (invalidOrder "Invalid side")) ;;
  (if arrayIncludes ["market"; "limit"] (toLowerCase ty) then ret tt
   else throw (invalidOrder "Invalid type")) ;;
  (if toLowerCase ty =? "limit" then
     _ <- positive (price params)
            "Price is required for limit orders and must be greater than 0" ;;
     ret tt
   else ret tt) ;;
  match skipBalanceCheck options with
  | Some true => ret tt
  | _ =>
      tryCatch
        (balanceCheck sym sd ty qty (price params))
        (fun error =>
           if instanceOf InsufficientFundsError error then throw error
           else rethrow (handleError error "Failed to validate balance"))
  end.

Variable createOrder : OrderParams -> M W Order.
Variable getOrder : string -> string -> M W (option Order).
Variable cancelOrder : string -> string -> M W bool.

(** [order.side === 'buy' ? 'sell' : 'buy'] *)
Definition reverseSide (side : option string) : string :=
  match side with
  | Some s => if s =? "buy" then "sell" else "buy"
  | None => "buy"
  end.

Definition marketCloseParams (order : Order) : OrderParams :=
  {| symbol := symbol order;
     side := Some (reverseSide (side order));
     type := Some "market";
     quantity := Some (remainingQuantity order);
     price := None;
     timeInForce := None |}.

Definition limitCloseParams (order : Order) (price : float)
    : OrderParams :=
  {| symbol := symbol order;
     side := Some (reverseSide (side order));
     type := Some "limit";
     quantity := Some (remainingQuantity order);
     price := Some price;
     timeInForce := Some "GTC" |}.

(** The statements of the [try] block before its [return]: fetch, the
    not-found check, cancel. *)
Definition fetchAndCancel (symbol orderId : string) : M W Order :=
  found <- invoke (CallGetOrder symbol orderId)
                  (getOrder symbol orderId) ;;
  match found with
  | Some order =>
      if hasOrderId order then
        invoke (CallCancelOrder symbol orderId)
               (cancelOrder symbol orderId) ;;
        ret order
      else throw (invalidOrder "Order not found")
  | None => throw (invalidOrder "Order not found")
  end.

(** [return this.createOrder(closeParams)] hands the promise of the
    asynchronous [createOrder] back without awaiting it, so a rejection
    of that promise is the rejection of the whole call and does not
    pass through the [catch] clause. *)
Definition closeOrderMarket (symbol orderId : string) : M W Order :=
  order <-
    tryCatch (fetchAndCancel symbol orderId)
      (fun error =>
         if instanceOf InvalidOrderError error then throw error
         else rethrow (handleError error
                         "Failed to close order at market price")) ;;
  let closeParams := marketCloseParams order in
  invoke (CallCreateOrder closeParams) (createOrder closeParams).

Definition closeOrderLimit (symbol orderId : string) (price : float)
    : M W Order :=
  order <-
    tryCatch (fetchAndCancel symbol orderId)
      (fun error =>
         if instanceOf InvalidOrderError error then throw error
         else rethrow (handleError error
                         "Failed to close order at limit price")) ;;
  let closeParams := limitCloseParams order price in
  invoke (CallCreateOrder closeParams) (createOrder closeParams).

End Methods.

End BaseExchange.

(** ** Further JavaScript operators used by the adapter *)

(** [s.toUpperCase()] on text in ASCII, where it maps the letters a to z
    and nothing else; as for [toLowerCase], a character above 127 is kept
    as it is. *)
Definition upperChar (c : ascii) : ascii :=
  let n := nat_of_ascii c in
  if (97 <=? n)%nat && (n <=? 122)%nat then ascii_of_nat (n - 32) else c.

Fixpoint toUpperCase (s : string) : string :=
  match s with
  | EmptyString => EmptyString
  | String c r => String (upperChar c) (toUpperCase r)
  end.

(** [{...old, ...patch}] on one property.  The patch either lacks the
    property ([None]) or has it ([Some v]), where the value [v] may itself
    be [undefined] ([Some None]): an own property of the patch wins
    whatever its value, so a property set to [undefined] erases the old
    value. *)
Definition spread {A} (old : option A) (patch : option (option A))
    : option A :=
  match patch with
  | Some v => v
  | None => old
  end.

(** [Partial<OrderParams>]: an object that has any of the properties of
    [OrderParams], each of them possibly set to [undefined]. *)
Module Partial.

Record OrderParams : Set := {
  symbol : option (option string);
  side : option (option string);
  type : option (option string);
  quantity : option (option float);
  price : option (option float);
  timeInForce : option (option string)
}.

End Partial.

(** ** exchanges/Hyperliquid.ts *)

Module Hyperliquid.

Section Adapter.

Context {W : Type}.

Variable numberToString : float -> string.
Variable getTicker : string -> M W Ticker.
Variable getBalances : M W (list Balance).

(** The request inside the [try] block of [createOrder]: [makeRequest]
    with method POST on [`${baseUrl}/orders`], then [transformOrder] on
    the response. *)
Variable postOrder : OrderParams -> M W Order.

Local Open Scope async_scope.

Definition createOrder (params : OrderParams) : M W Order :=
  BaseExchange.validateOrder numberToString getTicker getBalances
    params BaseExchange.defaultOptions ;;
  tryCatch (postOrder params)
    (fun error =>
       rethrow (BaseExchange.handleError error "Failed to create order")).

End Adapter.

(** An order as the exchange sends it ([order: any]): the properties
    [transformOrder] reads.  Each is a JSON string or missing, as in the
    replies of the test setup; the timestamp is a number. *)
Module Wire.

Record Order : Set := {
  orderId : option string;
  symbol : option string;
  side : option string;
  type : option string;
  quantity : option string;
  price : option string;
  status : option string;
  filledQuantity : option string;
  remainingQuantity : option string;
  avgPrice : option string;
  timestamp : Z;
  timeInForce : option string
}.

End Wire.

Section Transform.

(** JavaScript's [parseFloat], applied to a string or to [undefined]. *)
Variable parseFloat : option string -> float.

(** [x.toLowerCase()] on a property that may be missing. *)
Definition missingLowerCase : Thrown :=
  OtherError
    "Cannot read properties of undefined (reading 'toLowerCase')" None.

Definition transformOrder (order : Wire.Order) : Outcome Order :=
  match Wire.side order, Wire.type order, Wire.status order with
  | Some sd, Some ty, Some st =>
      Returned
        {| params :=
             {| symbol := Wire.symbol order;
                side := Some (toLowerCase sd);
                type := Some (toLowerCase ty);
                quantity := Some (parseFloat (Wire.quantity order));
                price :=
                  if toLowerCase ty =? "market" then None
                  else Some (parseFloat
                               (Some (orElse (Wire.price order) "0")));
                timeInForce :=
                  Some (toUpperCase
                          (orElse (Wire.timeInForce order) "GTC")) |};
           orderId := Wire.orderId order;
           status := toLowerCase st;
           filledQuantity := parseFloat (Wire.filledQuantity order);
           remainingQuantity := parseFloat (Wire.remainingQuantity order);
           avgPrice := parseFloat (Some (orElse (Wire.avgPrice order) "0"));
           timestamp := Wire.timestamp order |}
  | _, _, _ => Threw missingLowerCase
  end.

End Transform.

Inductive HttpMethod : Set := GET | POST | DELETE | PUT.

Section Http.

Context {W : Type}.

Variable baseUrl : string.

(** [await fetch(url, { method, headers, body })] for a request without a
    body: how it settles, and the state of the exchange afterwards.  The
    headers (key, timestamp, signature) are part of what the exchange
    sees. *)
Variable fetch : string -> HttpMethod -> W -> Request.Fetched * W.

Local Open Scope async_scope.

(** [makeRequest(url, method, headers)], no body given: the URL is used
    as it is. *)
Definition request (url : string) (method : HttpMethod)
    : M W Request.Body :=
  fun w =>
    let (fetched, w') := fetch url method w in
    Build_Run (Request.makeRequest url fetched) w' [].

Definition cancelOrder (symbol orderId : string) : M W bool :=
  tryCatch
    (request (baseUrl ++ "/orders/" ++ orderId) DELETE ;;
     ret true)
    (fun error =>
       rethrow (BaseExchange.handleError error "Failed to cancel order")).

End Http.

Section Modify.

Context {W : Type}.

Variable numberToString : float -> string.
Variable getTicker : string -> M W Ticker.
Variable getBalances : M W (list Balance).

(** [this.getOrder], which answers with a transformed order. *)
Variable getOrder : string -> string -> M W Order.

(** The request of [modifyOrder]: [makeRequest] with method PUT on
    [`${baseUrl}/orders/${orderId}`] and the merged order as body, then
    [transformOrder] on the response. *)
Variable putOrder : string -> Order -> M W Order.

Local Open Scope async_scope.

(** [{...existingOrder, ...params, symbol: existingOrder.symbol,
      side: existingOrder.side, type: existingOrder.type}]. *)
Definition updatedParams (existingOrder : Order)
    (patch : Partial.OrderParams) : Order :=
  {| params :=
       {| symbol := symbol existingOrder;
          side := side existingOrder;
          type := type existingOrder;
          quantity :=
            spread (quantity existingOrder) (Partial.quantity patch);
          price := spread (price existingOrder) (Partial.price patch);
          timeInForce :=
            spread (timeInForce existingOrder)
                   (Partial.timeInForce patch) |};
     orderId := orderId existingOrder;
     status := status existingOrder;
     filledQuantity := filledQuantity existingOrder;
     remainingQuantity := remainingQuantity existingOrder;
     avgPrice := avgPrice existingOrder;
     timestamp := timestamp existingOrder |}.

Definition modifyOrder (symbol orderId : string)
    (patch : Partial.OrderParams) : M W Order :=
  tryCatch
    (existingOrder <- getOrder symbol orderId ;;
     let updated := updatedParams existingOrder patch in
     BaseExchange.validateOrder numberToString getTicker getBalances
       updated {| BaseExchange.skipBalanceCheck := Some true |} ;;
     putOrder orderId updated)
    (fun error =>
       rethrow (BaseExchange.handleError error "Failed to modify order")).

End Modify.

End Hyperliquid.

(** ** A test double

    A small in-memory exchange in the manner of the mocked responses of
    [tests/setup.ts]: two balances, one ticker, orders that echo what was
    submitted.  Its state records what was cancelled and what was
    submitted. *)

Module TestExchange.

Record Book : Set := {
  cancelled : list string;
  submitted : list OrderParams
}.

Definition empty : Book := {| cancelled := []; submitted := [] |}.

(** A stand-in for Number::toString, exact on the values used below. *)
Definition numberToString (x : float) : string :=
  if PrimFloat.eqb x 5000%float then "5000"
  else if PrimFloat.eqb x 50000%float then "50000"
  else if PrimFloat.eqb x 500000000%float then "500000000"
  else if PrimFloat.eqb x 1%float then "1"
  else if PrimFloat.eqb x 2%float then "2"
  else "?".

Definition getBalances : M Book (list Balance) :=
  ret [ {| asset := "BTC"; free := 1%float; locked := 0.1%float;
           total := 1.1%float |};
        {| asset := "USDT"; free := 5000%float; locked := 1000%float;
           total := 6000%float |} ].

Definition getTicker (symbol : string) : M Book Ticker :=
  if includes "BTC-USDT" symbol then
    ret {| tickerSymbol := "BTC-USDT"; lastPrice := 50000%float;
           bidPrice := 49900%float; askPrice := 50100%float;
           volume24h := 1000%float; tickerTimestamp := 0%Z |}
  else
    throw (Taxonomy (newInvalidOrderError "Invalid symbol")).

Definition cancelOrder (symbol orderId : string) : M Book bool :=
  fun b =>
    Build_Run (Returned true)
      {| cancelled := orderId :: cancelled b; submitted := submitted b |}
      [].

(** The order the exchange reports for accepted parameters. *)
Definition accepted (p : OrderParams) (q : float) : Order :=
  {| params := p; orderId := Some "test-order-1"; status := "new";
     filledQuantity := 0%float; remainingQuantity := q;
     avgPrice := 0%float; timestamp := 0%Z |}.

Definition postOrder (p : OrderParams) : M Book Order :=
  fun b =>
    match quantity p with
    | Some q =>
        Build_Run (Returned (accepted p q))
          {| cancelled := cancelled b; submitted := p :: submitted b |} []
    | None =>
        Build_Run (Threw (OtherError "Invalid order parameters"
                                     (Some "INVALID_ORDER"))) b []
    end.

Definition createOrder : OrderParams -> M Book Order :=
  Hyperliquid.createOrder numberToString getTicker getBalances postOrder.

(** An open buy order of 0.1 BTC at 50000, of which [remaining] is left. *)
Definition restingOrder (id : option string) (remaining : float) : Order :=
  {| params := {| symbol := Some "BTC-USDT"; side := Some "buy";
                  type := Some "limit"; quantity := Some 0.1%float;
                  price := Some 50000%float; timeInForce := Some "GTC" |};
     orderId := id; status := "new";
     filledQuantity := PrimFloat.sub 0.1%float remaining;
     remainingQuantity := remaining;
     avgPrice := 0%float; timestamp := 0%Z |}.

(** [getOrder] answering with a fixed result. *)
Definition getOrder (answer : option Order) (symbol orderId : string)
    : M Book (option Order) :=
  ret answer.

(** A ticker whose prices did not parse: every number in it is NaN. *)
Definition garbledTicker (symbol : string) : M Book Ticker :=
  ret {| tickerSymbol := symbol; lastPrice := PrimFloat.nan;
         bidPrice := PrimFloat.nan; askPrice := PrimFloat.nan;
         volume24h := PrimFloat.nan; tickerTimestamp := 0%Z |}.

(** [getOrder] failing the way the adapter does for an unknown id. *)
Definition unknownOrder (symbol orderId : string)
    : M Book (option Order) :=
  throw (Taxonomy (newInvalidOrderError "Order not found")).

(** The reply of the test setup to any request about an unknown order. *)
Definition notFound (url : string) (method : Hyperliquid.HttpMethod)
    (b : Book) : Request.Fetched * Book :=
  (Request.Resolves
     {| Request.ok := false; Request.status := 404%Z;
        Request.json :=
          Request.JsonData {| Request.error := Some "Order not found";
                              Request.code := Some "NOT_FOUND" |} |},
   b).

(** The reply of the test setup to a DELETE on an order. *)
Definition deleted (url : string) (method : Hyperliquid.HttpMethod)
    (b : Book) : Request.Fetched * Book :=
  (Request.Resolves
     {| Request.ok := true; Request.status := 200%Z;
        Request.json :=
          Request.JsonData {| Request.error := None;
                              Request.code := None |} |},
   {| cancelled := url :: cancelled b; submitted := submitted b |}).

(** A stand-in for [parseFloat], exact on the strings used below. *)
Definition parseFloat (x : option string) : float :=
  match x with
  | Some s =>
      if s =? "0.1" then 0.1%float
      else if s =? "50000" then 50000%float
      else if s =? "0" then 0%float
      else PrimFloat.nan
  | None => PrimFloat.nan
  end.

(** The order of the test setup as it comes over the wire, its side in
    capitals. *)
Definition wireOrder : Hyperliquid.Wire.Order :=
  {| Hyperliquid.Wire.orderId := Some "42";
     Hyperliquid.Wire.symbol := Some "BTC-USDT";
     Hyperliquid.Wire.side := Some "BUY";
     Hyperliquid.Wire.type := Some "limit";
     Hyperliquid.Wire.quantity := Some "0.1";
     Hyperliquid.Wire.price := Some "50000";
     Hyperliquid.Wire.status := Some "new";
     Hyperliquid.Wire.filledQuantity := Some "0";
     Hyperliquid.Wire.remainingQuantity := Some "0.1";
     Hyperliquid.Wire.avgPrice := Some "0";
     Hyperliquid.Wire.timestamp := 0%Z;
     Hyperliquid.Wire.timeInForce := Some "gtc" |}.

(** [this.getOrder] of the adapter answering with the resting order. *)
Definition foundOrder (symbol orderId : string) : M Book Order :=
  ret (restingOrder (Some orderId) 0.1%float).

(** The PUT of a modification: the exchange echoes the order. *)
Definition putOrder (orderId : string) (o : Order) : M Book Order :=
  fun b =>
    Build_Run (Returned o)
      {| cancelled := cancelled b; submitted := params o :: submitted b |}
      [].

(** A [createOrder] whose promise is rejected with a plain [Error]. *)
Definition droppedCreate (p : OrderParams) : M Book Order :=
  throw (OtherError "socket hang up" None).

End TestExchange.

(** * Vocabulary of the statements *)

(** The code and the message a failure value carries, whatever kind of
    value it is. *)
Definition carriedCode (e : Thrown) : option string :=
  match e with
  | Taxonomy t => Errors.code t
  | OtherError _ c => c
  | NotAnError _ c => c
  end.

Definition carriedMessage (e : Thrown) : option string :=
  match e with
  | Taxonomy t => Some (message t)
  | OtherError m _ => Some m
  | NotAnError m _ => m
  end.

(** [raises o c k]: the call ended by throwing an instance whose class is
    [c] and whose code is [k]. *)
Definition raises {A} (o : Outcome A) (c : ErrorClass) (k : string) : Prop :=
  exists e : TaxonomyError,
    o = Threw (Taxonomy e) /\ cls e = c /\ Errors.code e = Some k.

(** The response came from a host that was reached: it is not the
    status-0, not-ok response the first guard looks for. *)
Definition reached (r : Request.Response) : Prop :=
  Request.ok r = true \/ Request.status r <> 0%Z.

(** A string field that is there and not empty. *)
Definition isPresent (field : option string) : Prop :=
  exists s, field = Some s /\ s <> "".

(** The reference price as the specification words it: the order's own
    price when the type is limit and a price is present; [None] stands for
    asking [getCurrentPrice]. *)
Definition statedReferencePrice (params : OrderParams) : option float :=
  match type params, price params with
  | Some ty, Some p => if ty =? "limit" then Some p else None
  | _, _ => None
  end.

(** A number is NaN when it differs from itself. *)
Definition isNaN (x : float) : Prop := PrimFloat.eqb x x = false.

(** The structural checks of [validateOrder] read as one function of the
    order: the message of the first check that fails, or the symbol, side,
    type and quantity the balance check goes on with. *)
Definition structure (params : OrderParams)
    : string + (string * string * string * float) :=
  match symbol params with
  | Some (String c0 r0) =>
      match side params with
      | Some (String c1 r1) =>
          match type params with
          | Some (String c2 r2) =>
              match quantity params with
              | Some q =>
                  if falsyNumber q || PrimFloat.leb q 0%float then
                    inl "Quantity must be greater than 0"
                  else if negb (arrayIncludes ["buy"; "sell"]
                                  (toLowerCase (String c1 r1))) then
                    inl "Invalid side"
                  else if negb (arrayIncludes ["market"; "limit"]
                                  (toLowerCase (String c2 r2))) then
                    inl "Invalid type"
                  else if toLowerCase (String c2 r2) =? "limit" then
                    match price params with
                    | Some p =>
                        if falsyNumber p || PrimFloat.leb p 0%float then
                          inl "Price is required for limit orders and must be greater than 0"
                        else
                          inr (String c0 r0, String c1 r1, String c2 r2, q)
                    | None =>
                        inl "Price is required for limit orders and must be greater than 0"
                    end
                  else inr (String c0 r0, String c1 r1, String c2 r2, q)
              | None => inl "Quantity must be greater than 0"
              end
          | _ => inl "Type is required"
          end
      | _ => inl "Side is required"
      end
  | _ => inl "Symbol is required"
  end.

(** The string has no [-] in it. *)
Definition dashFree (s : string) : Prop := includes "-" s = false.

(** Text in ASCII: every character is below 128. *)
Fixpoint isASCII (s : string) : bool :=
  match s with
  | EmptyString => true
  | String c r => (nat_of_ascii c <? 128)%nat && isASCII r
  end.

(** A string written in lower case, in upper case. *)
Definition isLowerCase (s : string) : Prop := toLowerCase s = s.
Definition isUpperCase (s : string) : Prop := toUpperCase s = s.

(** * Properties *)

(** ** The error classes *)

(** C9: whatever the message, an AuthenticationError carries code AUTH_ERROR
    and status 401, an InvalidOrderError carries code INVALID_ORDER and
    status 400, and an InsufficientFundsError carries code
    INSUFFICIENT_FUNDS and status 400. *)
Theorem subclass_codes_and_statuses (msg : string) :
  (Errors.code (newAuthenticationError msg) = Some "AUTH_ERROR" /\
   httpStatus (newAuthenticationError msg) = Some 401%Z) /\
  (Errors.code (newInvalidOrderError msg) = Some "INVALID_ORDER" /\
   httpStatus (newInvalidOrderError msg) = Some 400%Z) /\
  (Errors.code (newInsufficientFundsError msg) = Some "INSUFFICIENT_FUNDS" /\
   httpStatus (newInsufficientFundsError msg) = Some 400%Z).
Proof. repeat split. Qed.

(** C8, as the sources have it: the four constructors accept every message,
    the empty one included, and the instance carries the message it was
    given; nothing checks that it is non-empty. *)
Theorem constructors_keep_message (msg : string) (c : option string)
    (st : option Z) :
  message (newExchangeError msg c st) = msg /\
  message (newAuthenticationError msg) = msg /\
  message (newInvalidOrderError msg) = msg /\
  message (newInsufficientFundsError msg) = msg.
Proof. repeat split. Qed.

(** C8 fails as stated: each of the four classes is constructed with the
    empty message, and the instance then carries an empty message. *)
Lemma empty_message_is_accepted :
  message (newExchangeError "" None None) = "" /\
  message (newAuthenticationError "") = "" /\
  message (newInvalidOrderError "") = "" /\
  message (newInsufficientFundsError "") = "".
Proof. repeat split. Qed.

(** ** BaseExchange.handleError *)

(** C1, as the sources have it.  [handleError] always throws, and what it
    throws is an instance of one of the four classes:
    - an instance of the four classes is rethrown unchanged;
    - another [Error] with a code gives AuthenticationError for AUTH_ERROR,
      InvalidOrderError for INVALID_ORDER and for NOT_FOUND,
      InsufficientFundsError for INSUFFICIENT_FUNDS, and for any other code
      a plain ExchangeError with that code;
    - another [Error] without a code gives a plain ExchangeError with the
      error's message, or the default message when that is empty;
    - a value that is not an [Error] gives a plain ExchangeError with the
      default message and no code, whatever the value carries. *)
Theorem handleError_normalizes (e : Thrown) (d : string) :
  exists t : TaxonomyError,
    BaseExchange.handleError e d = Threw (Taxonomy t) /\
    match e with
    | Taxonomy e0 => t = e0
    | OtherError msg (Some c) =>
        (c = "AUTH_ERROR" -> cls t = AuthenticationError) /\
        (c = "INVALID_ORDER" \/ c = "NOT_FOUND" ->
         cls t = InvalidOrderError) /\
        (c = "INSUFFICIENT_FUNDS" -> cls t = InsufficientFundsError) /\
        (c <> "AUTH_ERROR" -> c <> "INVALID_ORDER" ->
         c <> "INSUFFICIENT_FUNDS" -> c <> "NOT_FOUND" ->
         t = newExchangeError (orElse (Some msg) d) (Some c) None)
    | OtherError msg None =>
        t = newExchangeError (orElse (Some msg) d) None None
    | NotAnError _ _ => t = newExchangeError d None None
    end.
Proof.
  destruct e as [e0 | msg [c |] | m c]; cbn [BaseExchange.handleError].
  - exists e0; split; reflexivity.
  - destruct (c =? "AUTH_ERROR") eqn:Eauth.
    { apply String.eqb_eq in Eauth; subst c.
      eexists; split; [reflexivity |].
      repeat split; intros; try reflexivity; try discriminate;
        try (destruct H; discriminate); congruence. }
    destruct (c =? "INVALID_ORDER") eqn:Einv.
    { apply String.eqb_eq in Einv; subst c.
      eexists; split; [reflexivity |].
      repeat split; intros; try reflexivity; try discriminate; congruence. }
    destruct (c =? "INSUFFICIENT_FUNDS") eqn:Eins.
    { apply String.eqb_eq in Eins; subst c.
      eexists; split; [reflexivity |].
      repeat split; intros; try reflexivity; try discriminate;
        try (destruct H; discriminate); congruence. }
    destruct (c =? "NOT_FOUND") eqn:Enf.
    { apply String.eqb_eq in Enf; subst c.
      eexists; split; [reflexivity |].
      repeat split; intros; try reflexivity; try discriminate; congruence. }
    apply String.eqb_neq in Eauth, Einv, Eins, Enf.
    eexists; split; [reflexivity |].
    repeat split; intros; try reflexivity; try congruence.
    destruct H; congruence.
  - eexists; split; reflexivity.
  - eexists; split; reflexivity.
Qed.

(** An adapter failure with code NOT_FOUND comes out as InvalidOrderError. *)
Lemma handleError_normalizes_witness :
  exists t : TaxonomyError,
    BaseExchange.handleError (OtherError "no such order" (Some "NOT_FOUND"))
      "failed"
      = Threw (Taxonomy t) /\
    cls t = InvalidOrderError.
Proof.
  destruct (handleError_normalizes
              (OtherError "no such order" (Some "NOT_FOUND")) "failed")
    as (t & Hthrow & _ & Hinvalid & _).
  exists t; split; [exact Hthrow | apply Hinvalid; right; reflexivity].
Defined.

(** C1 fails as stated: a thrown value that is not an [Error] carries the
    code AUTH_ERROR and a message, and comes out as a plain ExchangeError
    with the default message, not as an AuthenticationError. *)
Lemma handleError_code_on_non_error :
  carriedCode (NotAnError (Some "denied") (Some "AUTH_ERROR"))
    = Some "AUTH_ERROR" /\
  carriedMessage (NotAnError (Some "denied") (Some "AUTH_ERROR"))
    = Some "denied" /\
  BaseExchange.handleError (NotAnError (Some "denied") (Some "AUTH_ERROR"))
      "failed"
    = Threw (Taxonomy (newExchangeError "failed" None None)) /\
  cls (newExchangeError "failed" None None) <> AuthenticationError.
Proof. repeat split. discriminate. Qed.

(** ** makeRequest *)

Lemma reached_guard (r : Request.Response) :
  reached r -> negb (Request.ok r) && (Request.status r =? 0)%Z = false.
Proof.
  intros [Hok | Hst].
  - rewrite Hok; reflexivity.
  - apply Z.eqb_neq in Hst; rewrite Hst; apply andb_false_r.
Qed.

(** C7, as the sources have it.  [makeRequest] classifies a settled [fetch]
    in this order:
    - a [fetch] that rejects with anything but an instance of the four
      classes, or a not-ok response with status 0, gives ExchangeError with
      code NETWORK_ERROR;
    - otherwise a body that cannot be parsed gives ExchangeError with code
      INVALID_RESPONSE, whatever the status;
    - otherwise, for a body that parses to a value other than [null],
      status 404 gives InvalidOrderError when the URL contains [/orders/]
      and ExchangeError with code NOT_FOUND when it does not;
    - otherwise, the status not being 404, status 401 or the body code
      AUTH_ERROR gives AuthenticationError. *)
Theorem makeRequest_classification (url : string) :
  (forall reason,
      instanceOf ExchangeError reason = false ->
      raises (Request.makeRequest url (Request.Rejects reason))
             ExchangeError "NETWORK_ERROR") /\
  (forall r,
      Request.ok r = false -> Request.status r = 0%Z ->
      raises (Request.makeRequest url (Request.Resolves r))
             ExchangeError "NETWORK_ERROR") /\
  (forall r,
      reached r -> Request.json r = Request.Unparsable ->
      raises (Request.makeRequest url (Request.Resolves r))
             ExchangeError "INVALID_RESPONSE") /\
  (forall r data,
      Request.json r = Request.JsonData data -> Request.status r = 404%Z ->
      includes "/orders/" url = true ->
      raises (Request.makeRequest url (Request.Resolves r))
             InvalidOrderError "INVALID_ORDER") /\
  (forall r data,
      Request.json r = Request.JsonData data -> Request.status r = 404%Z ->
      includes "/orders/" url = false ->
      raises (Request.makeRequest url (Request.Resolves r))
             ExchangeError "NOT_FOUND") /\
  (forall r data,
      reached r -> Request.json r = Request.JsonData data ->
      Request.status r <> 404%Z ->
      Request.status r = 401%Z \/ Request.code data = Some "AUTH_ERROR" ->
      raises (Request.makeRequest url (Request.Resolves r))
             AuthenticationError "AUTH_ERROR").
Proof.
  unfold raises, Request.makeRequest.
  split; [| split; [| split; [| split; [| split]]]].
  - intros [e | msg c | m c] Hinst; cbn in Hinst; try discriminate;
      eexists; repeat split.
  - intros r Hok Hst; unfold Request.inspect.
    rewrite Hok, Hst; cbn.
    eexists; repeat split.
  - intros r Hreached Hjson; unfold Request.inspect.
    rewrite (reached_guard r Hreached), Hjson.
    eexists; repeat split.
  - intros r data Hjson Hst Hurl; unfold Request.inspect.
    rewrite Hst, Hjson, Hurl, andb_false_r; cbn.
    eexists; repeat split.
  - intros r data Hjson Hst Hurl; unfold Request.inspect.
    rewrite Hst, Hjson, Hurl, andb_false_r; cbn.
    eexists; repeat split.
  - intros r data Hreached Hjson Hst Hauth; unfold Request.inspect.
    rewrite (reached_guard r Hreached), Hjson.
    apply Z.eqb_neq in Hst; rewrite Hst.
    assert (Hcond : (Request.status r =? 401)%Z
                    || Request.isCode data "AUTH_ERROR" = true).
    { destruct Hauth as [H401 | Hcode].
      - rewrite H401; reflexivity.
      - unfold Request.isCode; rewrite Hcode; cbn; apply orb_true_r. }
    rewrite Hcond.
    eexists; repeat split.
Qed.

(** The mocked answers of the test setup: a 404 for an unknown order id, a
    401 for a bad key. *)
Lemma makeRequest_classification_witness :
  raises (Request.makeRequest "https://api.hyperliquid.io/v1/orders/non-existent-id"
            (Request.Resolves
               {| Request.ok := false; Request.status := 404%Z;
                  Request.json :=
                    Request.JsonData
                      {| Request.error := Some "Order not found";
                         Request.code := Some "NOT_FOUND" |} |}))
         InvalidOrderError "INVALID_ORDER" /\
  raises (Request.makeRequest "https://api.hyperliquid.io/v1/balances"
            (Request.Resolves
               {| Request.ok := false; Request.status := 401%Z;
                  Request.json :=
                    Request.JsonData
                      {| Request.error := Some "Authentication failed";
                         Request.code := Some "AUTH_ERROR" |} |}))
         AuthenticationError "AUTH_ERROR" /\
  raises (Request.makeRequest "https://invalid-url/markets"
            (Request.Rejects (OtherError "fetch failed" None)))
         ExchangeError "NETWORK_ERROR".
Proof.
  split; [| split].
  - destruct (makeRequest_classification
                "https://api.hyperliquid.io/v1/orders/non-existent-id")
      as (_ & _ & _ & Horder & _).
    eapply Horder; reflexivity.
  - destruct (makeRequest_classification
                "https://api.hyperliquid.io/v1/balances")
      as (_ & _ & _ & _ & _ & Hauth).
    eapply Hauth;
      [right; cbn; discriminate | reflexivity | cbn; discriminate
      | left; reflexivity].
  - destruct (makeRequest_classification "https://invalid-url/markets")
      as (Hnet & _).
    apply Hnet; reflexivity.
Defined.

(** C7 fails as stated, where two of its cases meet: a 404 on an order URL
    whose body cannot be parsed, and a 401 whose body cannot be parsed,
    both give ExchangeError with code INVALID_RESPONSE; a 404 whose body
    carries the code AUTH_ERROR gives ExchangeError with code NOT_FOUND. *)
Lemma makeRequest_earlier_guard_wins :
  Request.makeRequest "https://api.hyperliquid.io/v1/orders/42"
    (Request.Resolves {| Request.ok := false; Request.status := 404%Z;
                         Request.json := Request.Unparsable |})
    = Threw (Taxonomy (newExchangeError "Invalid response format"
                                        (Some "INVALID_RESPONSE") None)) /\
  Request.makeRequest "https://api.hyperliquid.io/v1/balances"
    (Request.Resolves {| Request.ok := false; Request.status := 401%Z;
                         Request.json := Request.Unparsable |})
    = Threw (Taxonomy (newExchangeError "Invalid response format"
                                        (Some "INVALID_RESPONSE") None)) /\
  Request.makeRequest "https://api.hyperliquid.io/v1/markets"
    (Request.Resolves
       {| Request.ok := false; Request.status := 404%Z;
          Request.json :=
            Request.JsonData {| Request.error := None;
                                Request.code := Some "AUTH_ERROR" |} |})
    = Threw (Taxonomy (newExchangeError "Resource not found"
                                        (Some "NOT_FOUND") None)).
Proof. repeat split. Qed.

(** ** Asynchronous computations *)

Section AsyncFacts.

Context {W : Type}.

Lemma run_eta {A} (r : Run W A) :
  Build_Run (outcome r) (world r) (calls r) = r.
Proof. destruct r; reflexivity. Qed.

Lemma bind_ret {A B} (a : A) (k : A -> M W B) (w : W) :
  bind (ret a) k w = k a w.
Proof. unfold bind, ret; cbn. apply run_eta. Qed.

Lemma bind_throw {A B} (t : Thrown) (k : A -> M W B) (w : W) :
  bind (throw t) k w = throw t w.
Proof. reflexivity. Qed.

Lemma bind_returned {A B} (m : M W A) (k : A -> M W B) (w w1 : W)
    (a : A) (t1 : list Event) :
  m w = Build_Run (Returned a) w1 t1 ->
  bind m k w =
    Build_Run (outcome (k a w1)) (world (k a w1)) (t1 ++ calls (k a w1)).
Proof. intros Hm; unfold bind; rewrite Hm; reflexivity. Qed.

Lemma bind_threw {A B} (m : M W A) (k : A -> M W B) (w w1 : W)
    (t : Thrown) (t1 : list Event) :
  m w = Build_Run (Threw t) w1 t1 ->
  bind m k w = Build_Run (Threw t) w1 t1.
Proof. intros Hm; unfold bind; rewrite Hm; reflexivity. Qed.

Lemma tryCatch_returned {A} (m : M W A) (h : Thrown -> M W A) (w w1 : W)
    (a : A) (t1 : list Event) :
  m w = Build_Run (Returned a) w1 t1 ->
  tryCatch m h w = Build_Run (Returned a) w1 t1.
Proof. intros Hm; unfold tryCatch; rewrite Hm; reflexivity. Qed.

Lemma tryCatch_threw {A} (m : M W A) (h : Thrown -> M W A) (w w1 : W)
    (t : Thrown) (t1 : list Event) :
  m w = Build_Run (Threw t) w1 t1 ->
  tryCatch m h w =
    Build_Run (outcome (h t w1)) (world (h t w1)) (t1 ++ calls (h t w1)).
Proof. intros Hm; unfold tryCatch; rewrite Hm; reflexivity. Qed.

Lemma invoke_run {A} (ev : Event) (m : M W A) (w w1 : W)
    (o : Outcome A) (t1 : list Event) :
  m w = Build_Run o w1 t1 ->
  invoke ev m w = Build_Run o w1 (ev :: t1).
Proof. intros Hm; unfold invoke; rewrite Hm; reflexivity. Qed.

End AsyncFacts.

(** ** Closing an order *)

Section Closing.

Context {W : Type}.
Variable createOrder : OrderParams -> M W Order.
Variable getOrder : string -> string -> M W (option Order).
Variable cancelOrder : string -> string -> M W bool.

(** The order is not there: the fetch and the check are all that runs. *)
Lemma fetchAndCancel_not_found (sym id : string) (w w1 : W)
    (found : option Order) (t1 : list Event) :
  getOrder sym id w = Build_Run (Returned found) w1 t1 ->
  (found = None \/
   exists order, found = Some order /\
                 (orderId order = None \/ orderId order = Some "")) ->
  BaseExchange.fetchAndCancel getOrder cancelOrder sym id w =
    Build_Run (Threw (BaseExchange.invalidOrder "Order not found"))
              w1 (CallGetOrder sym id :: t1).
Proof.
  intros Hget Hfound.
  unfold BaseExchange.fetchAndCancel.
  rewrite (bind_returned _ _ _ _ _ _ (invoke_run _ _ _ _ _ _ Hget)).
  destruct Hfound as [-> | (order & -> & Hid)].
  - cbn. rewrite app_nil_r. reflexivity.
  - unfold BaseExchange.hasOrderId.
    destruct Hid as [-> | ->]; cbn; rewrite app_nil_r; reflexivity.
Qed.

(** The order is there and the cancellation returns. *)
Lemma fetchAndCancel_found (sym id : string) (w w1 w2 : W)
    (order : Order) (done : bool) (t1 t2 : list Event) :
  getOrder sym id w = Build_Run (Returned (Some order)) w1 t1 ->
  BaseExchange.hasOrderId order = true ->
  cancelOrder sym id w1 = Build_Run (Returned done) w2 t2 ->
  BaseExchange.fetchAndCancel getOrder cancelOrder sym id w =
    Build_Run (Returned order) w2
              (CallGetOrder sym id :: t1 ++ CallCancelOrder sym id :: t2).
Proof.
  intros Hget Hid Hcancel.
  unfold BaseExchange.fetchAndCancel.
  rewrite (bind_returned _ _ _ _ _ _ (invoke_run _ _ _ _ _ _ Hget)).
  rewrite Hid.
  rewrite (bind_returned _ _ _ _ _ _ (invoke_run _ _ _ _ _ _ Hcancel)).
  cbn. rewrite app_nil_r. reflexivity.
Qed.

(** After a successful fetch and cancellation, the call is the submission
    of [closeParams]: its outcome and its state are those of
    [createOrder]. *)
Lemma submit_after_cancel (closeParams : Order -> OrderParams)
    (handler : Thrown -> M W Order) (sym id : string) (w w1 w2 : W)
    (order : Order) (done : bool) (t1 t2 : list Event) :
  getOrder sym id w = Build_Run (Returned (Some order)) w1 t1 ->
  BaseExchange.hasOrderId order = true ->
  cancelOrder sym id w1 = Build_Run (Returned done) w2 t2 ->
  bind (tryCatch (BaseExchange.fetchAndCancel getOrder cancelOrder sym id)
                 handler)
       (fun o => invoke (CallCreateOrder (closeParams o))
                        (createOrder (closeParams o))) w =
    Build_Run
      (outcome (createOrder (closeParams order) w2))
      (world (createOrder (closeParams order) w2))
      (CallGetOrder sym id :: t1 ++ CallCancelOrder sym id :: t2 ++
       CallCreateOrder (closeParams order) ::
       calls (createOrder (closeParams order) w2)).
Proof.
  intros Hget Hid Hcancel.
  rewrite (bind_returned _ _ _ _ _ _
             (tryCatch_returned _ handler _ _ _ _
                (fetchAndCancel_found _ _ _ _ _ _ _ _ _ Hget Hid Hcancel))).
  cbn. rewrite <- app_assoc. reflexivity.
Qed.

(** When the order is not there, the [catch] clause sees an
    InvalidOrderError and rethrows it as it is. *)
Lemma not_found_propagates {B} (defaultMessage : string)
    (k : Order -> M W B) (sym id : string) (w w1 : W)
    (found : option Order) (t1 : list Event) :
  getOrder sym id w = Build_Run (Returned found) w1 t1 ->
  (found = None \/
   exists order, found = Some order /\
                 (orderId order = None \/ orderId order = Some "")) ->
  bind (tryCatch (BaseExchange.fetchAndCancel getOrder cancelOrder sym id)
          (fun error =>
             if instanceOf InvalidOrderError error then throw error
             else rethrow (BaseExchange.handleError error
                             defaultMessage)))
       k w =
    Build_Run (Threw (Taxonomy (newInvalidOrderError "Order not found")))
              w1 (CallGetOrder sym id :: t1).
Proof.
  intros Hget Hfound.
  apply bind_threw.
  rewrite (tryCatch_threw _ _ _ _ _ _
             (fetchAndCancel_not_found _ _ _ _ _ _ Hget Hfound)).
  cbn. rewrite app_nil_r. reflexivity.
Qed.

End Closing.

(** C5: when [getOrder] produces no order, or an order without an id,
    [closeOrderMarket] and [closeOrderLimit] both fail with the
    InvalidOrderError 'Order not found' thrown by the check itself, and the
    only adapter call made is the [getOrder]: neither [cancelOrder] nor
    [createOrder] is attempted. *)
Theorem closeOrder_not_found {W : Type}
    (createOrder : OrderParams -> M W Order)
    (getOrder : string -> string -> M W (option Order))
    (cancelOrder : string -> string -> M W bool)
    (sym id : string) (limitPrice : float) (w w1 : W)
    (found : option Order) (t1 : list Event) :
  getOrder sym id w = Build_Run (Returned found) w1 t1 ->
  (found = None \/
   exists order, found = Some order /\
                 (orderId order = None \/ orderId order = Some "")) ->
  BaseExchange.closeOrderMarket createOrder getOrder cancelOrder sym id w =
    Build_Run (Threw (Taxonomy (newInvalidOrderError "Order not found")))
              w1 (CallGetOrder sym id :: t1) /\
  BaseExchange.closeOrderLimit createOrder getOrder cancelOrder sym id
      limitPrice w =
    Build_Run (Threw (Taxonomy (newInvalidOrderError "Order not found")))
              w1 (CallGetOrder sym id :: t1).
Proof.
  intros Hget Hfound; split.
  - unfold BaseExchange.closeOrderMarket.
    apply (not_found_propagates getOrder cancelOrder _ _ _ _ _ _ _ _
             Hget Hfound).
  - unfold BaseExchange.closeOrderLimit.
    apply (not_found_propagates getOrder cancelOrder _ _ _ _ _ _ _ _
             Hget Hfound).
Qed.

(** Nothing is found on the test exchange. *)
Lemma closeOrder_not_found_witness :
  BaseExchange.closeOrderMarket TestExchange.createOrder
      (TestExchange.getOrder None) TestExchange.cancelOrder
      "BTC-USDT" "non-existent-id" TestExchange.empty =
    Build_Run (Threw (Taxonomy (newInvalidOrderError "Order not found")))
              TestExchange.empty [CallGetOrder "BTC-USDT" "non-existent-id"] /\
  BaseExchange.closeOrderLimit TestExchange.createOrder
      (TestExchange.getOrder None) TestExchange.cancelOrder
      "BTC-USDT" "non-existent-id" 50000%float TestExchange.empty =
    Build_Run (Threw (Taxonomy (newInvalidOrderError "Order not found")))
              TestExchange.empty [CallGetOrder "BTC-USDT" "non-existent-id"].
Proof.
  apply (closeOrder_not_found TestExchange.createOrder
           (TestExchange.getOrder None) TestExchange.cancelOrder
           "BTC-USDT" "non-existent-id" 50000%float
           TestExchange.empty TestExchange.empty None []).
  - reflexivity.
  - left; reflexivity.
Defined.

Lemma nonempty_id (order : Order) :
  (exists i, orderId order = Some i /\ i <> "") ->
  BaseExchange.hasOrderId order = true.
Proof.
  intros (i & Hi & Hne); unfold BaseExchange.hasOrderId; rewrite Hi.
  destruct i; [contradiction | reflexivity].
Qed.

(** C3: when [getOrder] returns an order with a non-empty id,
    [closeOrderMarket] calls [cancelOrder] for it and then [createOrder]
    with the order's symbol, the reversed side (buy becomes sell, sell
    becomes buy), type market and the order's remaining quantity; what
    [createOrder] does with these parameters is the result of the call.  In
    particular a buy order with 0.1 remaining is closed by a market sell
    of 0.1. *)
Theorem closeOrderMarket_cancels_then_reverses {W : Type}
    (createOrder : OrderParams -> M W Order)
    (getOrder : string -> string -> M W (option Order))
    (cancelOrder : string -> string -> M W bool)
    (sym id : string) (w w1 w2 : W) (order : Order) (done : bool)
    (t1 t2 : list Event) :
  getOrder sym id w = Build_Run (Returned (Some order)) w1 t1 ->
  (exists i, orderId order = Some i /\ i <> "") ->
  cancelOrder sym id w1 = Build_Run (Returned done) w2 t2 ->
  let closeParams :=
    {| symbol := symbol order;
       side := Some (BaseExchange.reverseSide (side order));
       type := Some "market";
       quantity := Some (remainingQuantity order);
       price := None;
       timeInForce := None |} in
  BaseExchange.closeOrderMarket createOrder getOrder cancelOrder sym id w =
    Build_Run (outcome (createOrder closeParams w2))
              (world (createOrder closeParams w2))
              (CallGetOrder sym id :: t1 ++
               CallCancelOrder sym id :: t2 ++
               CallCreateOrder closeParams ::
               calls (createOrder closeParams w2)) /\
  (side order = Some "buy" -> side closeParams = Some "sell") /\
  (side order = Some "sell" -> side closeParams = Some "buy") /\
  (side order = Some "buy" -> remainingQuantity order = 0.1%float ->
   closeParams =
     {| symbol := symbol order; side := Some "sell"; type := Some "market";
        quantity := Some 0.1%float; price := None; timeInForce := None |}).
Proof.
  intros Hget Hid Hcancel closeParams.
  split; [| split; [| split]].
  - unfold BaseExchange.closeOrderMarket.
    apply (submit_after_cancel createOrder getOrder cancelOrder
             BaseExchange.marketCloseParams _ _ _ _ _ _ _ _ _ _
             Hget (nonempty_id _ Hid) Hcancel).
  - intros Hside; unfold closeParams; cbn; rewrite Hside; reflexivity.
  - intros Hside; unfold closeParams; cbn; rewrite Hside; reflexivity.
  - intros Hside Hrem; unfold closeParams; rewrite Hside, Hrem; reflexivity.
Qed.

(** The open buy order of 0.1 on the test exchange, closed at market. *)
Lemma closeOrderMarket_cancels_then_reverses_witness :
  BaseExchange.closeOrderMarket TestExchange.createOrder
      (TestExchange.getOrder
         (Some (TestExchange.restingOrder (Some "42") 0.1%float)))
      TestExchange.cancelOrder "BTC-USDT" "42" TestExchange.empty =
    Build_Run
      (Returned
         (TestExchange.accepted
            {| symbol := Some "BTC-USDT"; side := Some "sell";
               type := Some "market"; quantity := Some 0.1%float;
               price := None; timeInForce := None |} 0.1%float))
      {| TestExchange.cancelled := ["42"];
         TestExchange.submitted :=
           [ {| symbol := Some "BTC-USDT"; side := Some "sell";
                type := Some "market"; quantity := Some 0.1%float;
                price := None; timeInForce := None |} ] |}
      [ CallGetOrder "BTC-USDT" "42"; CallCancelOrder "BTC-USDT" "42";
        CallCreateOrder
          {| symbol := Some "BTC-USDT"; side := Some "sell";
             type := Some "market"; quantity := Some 0.1%float;
             price := None; timeInForce := None |};
        CallGetBalances; CallGetTicker "BTC-USDT" ].
Proof.
  refine (proj1 (closeOrderMarket_cancels_then_reverses
                   TestExchange.createOrder
                   (TestExchange.getOrder
                      (Some (TestExchange.restingOrder (Some "42") 0.1%float)))
                   TestExchange.cancelOrder "BTC-USDT" "42"
                   TestExchange.empty TestExchange.empty
                   {| TestExchange.cancelled := ["42"];
                      TestExchange.submitted := [] |}
                   (TestExchange.restingOrder (Some "42") 0.1%float)
                   true [] [] _ _ _)).
  - reflexivity.
  - exists "42"; split; [reflexivity | discriminate].
  - reflexivity.
Defined.

(** C4: when [getOrder] returns an order with a non-empty id,
    [closeOrderLimit] calls [cancelOrder] for it and then [createOrder]
    with the order's symbol, the reversed side, type limit, the order's
    remaining quantity, the price it was given and time in force GTC.  In
    particular a buy order with 0.1 remaining, closed at 51000, gives a
    limit sell of 0.1 at 51000. *)
Theorem closeOrderLimit_cancels_then_reverses {W : Type}
    (createOrder : OrderParams -> M W Order)
    (getOrder : string -> string -> M W (option Order))
    (cancelOrder : string -> string -> M W bool)
    (sym id : string) (limitPrice : float) (w w1 w2 : W) (order : Order)
    (done : bool) (t1 t2 : list Event) :
  getOrder sym id w = Build_Run (Returned (Some order)) w1 t1 ->
  (exists i, orderId order = Some i /\ i <> "") ->
  cancelOrder sym id w1 = Build_Run (Returned done) w2 t2 ->
  let closeParams :=
    {| symbol := symbol order;
       side := Some (BaseExchange.reverseSide (side order));
       type := Some "limit";
       quantity := Some (remainingQuantity order);
       price := Some limitPrice;
       timeInForce := Some "GTC" |} in
  BaseExchange.closeOrderLimit createOrder getOrder cancelOrder sym id
      limitPrice w =
    Build_Run (outcome (createOrder closeParams w2))
              (world (createOrder closeParams w2))
              (CallGetOrder sym id :: t1 ++
               CallCancelOrder sym id :: t2 ++
               CallCreateOrder closeParams ::
               calls (createOrder closeParams w2)) /\
  (side order = Some "buy" -> side closeParams = Some "sell") /\
  (side order = Some "sell" -> side closeParams = Some "buy") /\
  (side order = Some "buy" -> remainingQuantity order = 0.1%float ->
   limitPrice = 51000%float ->
   closeParams =
     {| symbol := symbol order; side := Some "sell"; type := Some "limit";
        quantity := Some 0.1%float; price := Some 51000%float;
        timeInForce := Some "GTC" |}).
Proof.
  intros Hget Hid Hcancel closeParams.
  split; [| split; [| split]].
  - unfold BaseExchange.closeOrderLimit.
    apply (submit_after_cancel createOrder getOrder cancelOrder
             (fun o => BaseExchange.limitCloseParams o limitPrice)
             _ _ _ _ _ _ _ _ _ _
             Hget (nonempty_id _ Hid) Hcancel).
  - intros Hside; unfold closeParams; cbn; rewrite Hside; reflexivity.
  - intros Hside; unfold closeParams; cbn; rewrite Hside; reflexivity.
  - intros Hside Hrem Hprice; unfold closeParams;
      rewrite Hside, Hrem, Hprice; reflexivity.
Qed.

(** The open buy order of 0.1 on the test exchange, closed at 51000. *)
Lemma closeOrderLimit_cancels_then_reverses_witness :
  BaseExchange.closeOrderLimit TestExchange.createOrder
      (TestExchange.getOrder
         (Some (TestExchange.restingOrder (Some "42") 0.1%float)))
      TestExchange.cancelOrder "BTC-USDT" "42" 51000%float
      TestExchange.empty =
    Build_Run
      (Returned
         (TestExchange.accepted
            {| symbol := Some "BTC-USDT"; side := Some "sell";
               type := Some "limit"; quantity := Some 0.1%float;
               price := Some 51000%float; timeInForce := Some "GTC" |}
            0.1%float))
      {| TestExchange.cancelled := ["42"];
         TestExchange.submitted :=
           [ {| symbol := Some "BTC-USDT"; side := Some "sell";
                type := Some "limit"; quantity := Some 0.1%float;
                price := Some 51000%float; timeInForce := Some "GTC" |} ] |}
      [ CallGetOrder "BTC-USDT" "42"; CallCancelOrder "BTC-USDT" "42";
        CallCreateOrder
          {| symbol := Some "BTC-USDT"; side := Some "sell";
             type := Some "limit"; quantity := Some 0.1%float;
             price := Some 51000%float; timeInForce := Some "GTC" |};
        CallGetBalances ].
Proof.
  refine (proj1 (closeOrderLimit_cancels_then_reverses
                   TestExchange.createOrder
                   (TestExchange.getOrder
                      (Some (TestExchange.restingOrder (Some "42") 0.1%float)))
                   TestExchange.cancelOrder "BTC-USDT" "42" 51000%float
                   TestExchange.empty TestExchange.empty
                   {| TestExchange.cancelled := ["42"];
                      TestExchange.submitted := [] |}
                   (TestExchange.restingOrder (Some "42") 0.1%float)
                   true [] [] _ _ _)).
  - reflexivity.
  - exists "42"; split; [reflexivity | discriminate].
  - reflexivity.
Defined.

(** ** Validation *)

Section Validation.

Context {W : Type}.
Variable numberToString : float -> string.
Variable getTicker : string -> M W Ticker.
Variable getBalances : M W (list Balance).

Lemma present_run (field : option string) (msg : string) :
  isPresent field ->
  exists s, field = Some s /\ s <> "" /\
            BaseExchange.present (W := W) field msg = ret s.
Proof.
  intros (s & -> & Hne); exists s; repeat split; try assumption.
  destruct s; [contradiction | reflexivity].
Qed.

(** A quantity that is missing, zero, not a number, or not above zero
    stops the validation at its fourth check, once symbol, side and type
    are there. *)
Lemma quantity_check (params : OrderParams) (options : BaseExchange.ValidateOptions)
    (w : W) :
  isPresent (symbol params) -> isPresent (side params) ->
  isPresent (type params) ->
  match quantity params with
  | Some q => falsyNumber q || PrimFloat.leb q 0%float = true
  | None => True
  end ->
  BaseExchange.validateOrder numberToString getTicker getBalances
      params options w =
    Build_Run
      (Threw (Taxonomy (newInvalidOrderError
                          "Quantity must be greater than 0")))
      w [].
Proof.
  intros Hsym Hside Hty Hq.
  destruct (present_run _ "Symbol is required" Hsym) as (s & _ & _ & Es).
  destruct (present_run _ "Side is required" Hside) as (sd & _ & _ & Esd).
  destruct (present_run _ "Type is required" Hty) as (ty & _ & _ & Ety).
  unfold BaseExchange.validateOrder.
  rewrite Es, bind_ret, Esd, bind_ret, Ety, bind_ret.
  unfold BaseExchange.positive at 1.
  destruct (quantity params) as [q |]; [rewrite Hq |]; reflexivity.
Qed.

End Validation.

(** C6, as the sources have it: when symbol, side and type are present
    (each a non-empty string, valid or not), an order whose quantity is
    absent or at most 0 fails validation with the InvalidOrderError
    'Quantity must be greater than 0', whatever the price and the options,
    and before any adapter call. *)
Theorem validateOrder_quantity_rejected {W : Type}
    (numberToString : float -> string)
    (getTicker : string -> M W Ticker) (getBalances : M W (list Balance))
    (params : OrderParams) (options : BaseExchange.ValidateOptions) (w : W) :
  isPresent (symbol params) -> isPresent (side params) ->
  isPresent (type params) ->
  (quantity params = None \/
   exists q, quantity params = Some q /\ PrimFloat.leb q 0%float = true) ->
  BaseExchange.validateOrder numberToString getTicker getBalances
      params options w =
    Build_Run
      (Threw (Taxonomy (newInvalidOrderError
                          "Quantity must be greater than 0")))
      w [].
Proof.
  intros Hsym Hside Hty Hq.
  apply quantity_check; try assumption.
  destruct Hq as [-> | (q & -> & Hle)]; [exact I |].
  rewrite Hle; apply orb_true_r.
Qed.

(** A zero quantity with an unknown side and type: still the quantity
    message. *)
Lemma validateOrder_quantity_rejected_witness :
  BaseExchange.validateOrder TestExchange.numberToString
      TestExchange.getTicker TestExchange.getBalances
      {| symbol := Some "BTC-USDT"; side := Some "hold";
         type := Some "stop"; quantity := Some 0%float;
         price := None; timeInForce := None |}
      BaseExchange.defaultOptions TestExchange.empty =
    Build_Run
      (Threw (Taxonomy (newInvalidOrderError
                          "Quantity must be greater than 0")))
      TestExchange.empty [].
Proof.
  apply (validateOrder_quantity_rejected TestExchange.numberToString
           TestExchange.getTicker TestExchange.getBalances
           {| symbol := Some "BTC-USDT"; side := Some "hold";
              type := Some "stop"; quantity := Some 0%float;
              price := None; timeInForce := None |}
           BaseExchange.defaultOptions TestExchange.empty).
  - exists "BTC-USDT"; split; [reflexivity | discriminate].
  - exists "hold"; split; [reflexivity | discriminate].
  - exists "stop"; split; [reflexivity | discriminate].
  - right; exists 0%float; split; reflexivity.
Defined.

(** C6 fails as stated: with the symbol absent and the quantity 0, the
    validation fails with 'Symbol is required'; with the symbol there and
    the side absent, with 'Side is required'; with symbol and side there
    and the type absent, with 'Type is required'. *)
Lemma validateOrder_presence_checked_first :
  PrimFloat.leb 0%float 0%float = true /\
  BaseExchange.validateOrder TestExchange.numberToString
      TestExchange.getTicker TestExchange.getBalances
      {| symbol := None; side := Some "buy"; type := Some "market";
         quantity := Some 0%float; price := None; timeInForce := None |}
      BaseExchange.defaultOptions TestExchange.empty =
    Build_Run (Threw (Taxonomy (newInvalidOrderError "Symbol is required")))
              TestExchange.empty [] /\
  BaseExchange.validateOrder TestExchange.numberToString
      TestExchange.getTicker TestExchange.getBalances
      {| symbol := Some "BTC-USDT"; side := None; type := Some "market";
         quantity := Some 0%float; price := None; timeInForce := None |}
      BaseExchange.defaultOptions TestExchange.empty =
    Build_Run (Threw (Taxonomy (newInvalidOrderError "Side is required")))
              TestExchange.empty [] /\
  BaseExchange.validateOrder TestExchange.numberToString
      TestExchange.getTicker TestExchange.getBalances
      {| symbol := Some "BTC-USDT"; side := Some "buy"; type := None;
         quantity := None; price := None; timeInForce := None |}
      BaseExchange.defaultOptions TestExchange.empty =
    Build_Run (Threw (Taxonomy (newInvalidOrderError "Type is required")))
              TestExchange.empty [].
Proof. repeat split. Qed.

Lemma reverseSide_present (s : option string) :
  isPresent (Some (BaseExchange.reverseSide s)).
Proof.
  exists (BaseExchange.reverseSide s); split; [reflexivity |].
  unfold BaseExchange.reverseSide.
  destruct s as [s |]; [destruct (s =? "buy") |]; discriminate.
Qed.

(** C10: when [getOrder] returns an order with a non-empty id (and a
    symbol) whose remaining quantity is 0 (of either sign), and
    [createOrder] is
    Hyperliquid's, which validates first, [closeOrderMarket] calls
    [cancelOrder], then [createOrder], and fails with the InvalidOrderError
    'Quantity must be greater than 0' of the validation.  No call follows
    the failed [createOrder], and the exchange is left in the state the
    cancellation produced. *)
Theorem closeOrderMarket_filled_order_stays_cancelled {W : Type}
    (numberToString : float -> string)
    (getTicker : string -> M W Ticker) (getBalances : M W (list Balance))
    (postOrder : OrderParams -> M W Order)
    (getOrder : string -> string -> M W (option Order))
    (cancelOrder : string -> string -> M W bool)
    (sym id : string) (w w1 w2 : W) (order : Order) (done : bool)
    (t1 t2 : list Event) :
  getOrder sym id w = Build_Run (Returned (Some order)) w1 t1 ->
  (exists i, orderId order = Some i /\ i <> "") ->
  isPresent (symbol order) ->
  PrimFloat.eqb (remainingQuantity order) 0%float = true ->
  cancelOrder sym id w1 = Build_Run (Returned done) w2 t2 ->
  BaseExchange.closeOrderMarket
      (Hyperliquid.createOrder numberToString getTicker getBalances postOrder)
      getOrder cancelOrder sym id w =
    Build_Run
      (Threw (Taxonomy (newInvalidOrderError
                          "Quantity must be greater than 0")))
      w2
      (CallGetOrder sym id :: t1 ++
       CallCancelOrder sym id :: t2 ++
       [CallCreateOrder
          {| symbol := symbol order;
             side := Some (BaseExchange.reverseSide (side order));
             type := Some "market";
             quantity := Some (remainingQuantity order);
             price := None;
             timeInForce := None |}]).
Proof.
  intros Hget Hid Hsym Hrem Hcancel.
  unfold BaseExchange.closeOrderMarket.
  rewrite (submit_after_cancel _ getOrder cancelOrder
             BaseExchange.marketCloseParams _ _ _ _ _ _ _ _ _ _
             Hget (nonempty_id _ Hid) Hcancel).
  assert (Hcreate :
    Hyperliquid.createOrder numberToString getTicker getBalances postOrder
        (BaseExchange.marketCloseParams order) w2 =
      Build_Run
        (Threw (Taxonomy (newInvalidOrderError
                            "Quantity must be greater than 0")))
        w2 []).
  { unfold Hyperliquid.createOrder.
    apply bind_threw, quantity_check.
    - exact Hsym.
    - apply reverseSide_present.
    - exists "market"; split; [reflexivity | discriminate].
    - cbn. unfold falsyNumber. rewrite Hrem. reflexivity. }
  rewrite Hcreate. reflexivity.
Qed.

(** A fully filled order on the test exchange: the call fails, and the
    order is among the cancelled ones afterwards. *)
Lemma closeOrderMarket_filled_order_stays_cancelled_witness :
  BaseExchange.closeOrderMarket TestExchange.createOrder
      (TestExchange.getOrder
         (Some (TestExchange.restingOrder (Some "42") 0%float)))
      TestExchange.cancelOrder "BTC-USDT" "42" TestExchange.empty =
    Build_Run
      (Threw (Taxonomy (newInvalidOrderError
                          "Quantity must be greater than 0")))
      {| TestExchange.cancelled := ["42"]; TestExchange.submitted := [] |}
      [ CallGetOrder "BTC-USDT" "42"; CallCancelOrder "BTC-USDT" "42";
        CallCreateOrder
          {| symbol := Some "BTC-USDT"; side := Some "sell";
             type := Some "market"; quantity := Some 0%float;
             price := None; timeInForce := None |} ].
Proof.
  refine (closeOrderMarket_filled_order_stays_cancelled
            TestExchange.numberToString TestExchange.getTicker
            TestExchange.getBalances TestExchange.postOrder
            (TestExchange.getOrder
               (Some (TestExchange.restingOrder (Some "42") 0%float)))
            TestExchange.cancelOrder "BTC-USDT" "42"
            TestExchange.empty TestExchange.empty
            {| TestExchange.cancelled := ["42"];
               TestExchange.submitted := [] |}
            (TestExchange.restingOrder (Some "42") 0%float)
            true [] [] _ _ _ _ _).
  - reflexivity.
  - exists "42"; split; [reflexivity | discriminate].
  - exists "BTC-USDT"; split; [reflexivity | discriminate].
  - reflexivity.
  - reflexivity.
Defined.

Lemma side_accepted (sd : string) :
  sd = "buy" \/ sd = "sell" ->
  arrayIncludes ["buy"; "sell"] (toLowerCase sd) = true.
Proof. intros [-> | ->]; reflexivity. Qed.

Lemma type_accepted (ty : string) :
  ty = "market" \/ ty = "limit" ->
  arrayIncludes ["market"; "limit"] (toLowerCase ty) = true.
Proof. intros [-> | ->]; reflexivity. Qed.

Section BalanceCheck.

Context {W : Type}.
Variable numberToString : float -> string.
Variable getTicker : string -> M W Ticker.
Variable getBalances : M W (list Balance).

(** The [catch] clause of the balance check lets the two intended
    endings through. *)
Lemma balance_guard (m : M W unit) (w w2 : W) (t : list Event)
    (short : bool) (e : TaxonomyError) :
  cls e = InsufficientFundsError ->
  m w = Build_Run (if short then Threw (Taxonomy e) else Returned tt) w2 t ->
  tryCatch m
    (fun error =>
       if instanceOf InsufficientFundsError error then throw error
       else rethrow (BaseExchange.handleError error
                       "Failed to validate balance")) w =
    Build_Run (if short then Threw (Taxonomy e) else Returned tt) w2 t.
Proof.
  intros Hcls Hm; destruct short.
  - rewrite (tryCatch_threw _ _ _ _ _ _ Hm).
    cbn. rewrite Hcls. cbn. rewrite app_nil_r. reflexivity.
  - apply (tryCatch_returned _ _ _ _ _ _ Hm).
Qed.

Lemma balanceCheck_run (sym sd ty : string) (q : float)
    (price : option float) (w w1 w2 : W) (balance : Balance) (px : float)
    (t1 t2 : list Event) :
  BaseExchange.getBalance getBalances
      (BaseExchange.requiredAsset sym sd) w =
    Build_Run (Returned balance) w1 t1 ->
  match price with
  | Some p =>
      if (ty =? "market") || falsyNumber p
      then BaseExchange.getCurrentPrice getTicker sym
      else ret p
  | None => BaseExchange.getCurrentPrice getTicker sym
  end w1 = Build_Run (Returned px) w2 t2 ->
  BaseExchange.balanceCheck numberToString getTicker getBalances
      sym sd ty q price w =
    Build_Run
      (if PrimFloat.ltb (free balance)
            (if sd =? "buy" then PrimFloat.mul q px else q)
       then Threw (BaseExchange.insufficientFunds numberToString
                     (BaseExchange.requiredAsset sym sd)
                     (if sd =? "buy" then PrimFloat.mul q px else q)
                     (free balance))
       else Returned tt)
      w2 (t1 ++ t2).
Proof.
  intros Hbal Hpx.
  unfold BaseExchange.balanceCheck.
  rewrite (bind_returned _ _ _ _ _ _ Hbal).
  rewrite (bind_returned _ _ _ _ _ _ Hpx).
  destruct (PrimFloat.ltb _ _); cbn; rewrite app_nil_r; reflexivity.
Qed.

End BalanceCheck.

(** X30: the balance check on an order written the way the types declare
    it.  Take an order that passes the structural checks, with side [buy]
    or [sell] and type [market] or [limit] in lower case, validated
    without [skipBalanceCheck].
    The symbol is split on [-] into base and quote; [getBalance] is asked
    for the quote asset when the side is buy and for the base asset
    otherwise; the reference price is the order's price when the type is
    limit, and otherwise what [getCurrentPrice] returns for the symbol; the
    required amount is quantity times reference price for a buy and the
    quantity otherwise.  When both lookups return, validation fails with
    the InsufficientFundsError message built from asset, required amount
    and free balance exactly when the free balance is below the required
    amount, and succeeds otherwise. *)
Theorem validateOrder_balance_check {W : Type}
    (numberToString : float -> string)
    (getTicker : string -> M W Ticker) (getBalances : M W (list Balance))
    (params : OrderParams) (options : BaseExchange.ValidateOptions)
    (w w1 w2 : W) (sym sd ty : string) (q px : float) (balance : Balance)
    (t1 t2 : list Event) :
  symbol params = Some sym -> side params = Some sd ->
  type params = Some ty -> quantity params = Some q ->
  sd = "buy" \/ sd = "sell" ->
  ty = "market" \/ ty = "limit" ->
  outcome (BaseExchange.validateOrder numberToString getTicker getBalances
             params {| BaseExchange.skipBalanceCheck := Some true |} w)
    = Returned tt ->
  BaseExchange.skipBalanceCheck options <> Some true ->
  let parts := split "-" sym in
  let wanted := if sd =? "buy" then nth_error parts 1 else nth_error parts 0 in
  BaseExchange.getBalance getBalances wanted w =
    Build_Run (Returned balance) w1 t1 ->
  match statedReferencePrice params with
  | Some p => px = p /\ w2 = w1 /\ t2 = []
  | None =>
      BaseExchange.getCurrentPrice getTicker sym w1 =
        Build_Run (Returned px) w2 t2
  end ->
  let requiredAmount := if sd =? "buy" then PrimFloat.mul q px else q in
  BaseExchange.validateOrder numberToString getTicker getBalances
      params options w =
    Build_Run
      (if PrimFloat.ltb (free balance) requiredAmount
       then Threw (Taxonomy (newInsufficientFundsError
              ("Insufficient " ++ interpolate wanted ++
               " balance. Required: " ++ numberToString requiredAmount ++
               ", Available: " ++ numberToString (free balance))))
       else Returned tt)
      w2 (t1 ++ t2).
Proof.
  intros Hsym Hside Hty Hq Hsd Htype Hstruct Hskip parts wanted Hbal Hpx
         requiredAmount.
  unfold BaseExchange.validateOrder in Hstruct |- *.
  rewrite Hsym, Hside, Hty, Hq in *.
  destruct sym as [| c r]; [discriminate Hstruct |].
  assert (Esd : BaseExchange.present (W := W) (Some sd) "Side is required"
                = ret sd)
    by (destruct Hsd as [-> | ->]; reflexivity).
  assert (Ety : BaseExchange.present (W := W) (Some ty) "Type is required"
                = ret ty)
    by (destruct Htype as [-> | ->]; reflexivity).
  change (BaseExchange.present (W := W) (Some (String c r))
            "Symbol is required")
    with (ret (W := W) (String c r)) in *.
  rewrite Esd, Ety, !bind_ret in *.
  cbn [BaseExchange.positive] in Hstruct |- *.
  destruct (falsyNumber q || PrimFloat.leb q 0%float) eqn:Eq;
    [discriminate Hstruct |].
  rewrite bind_ret, (side_accepted sd Hsd), (type_accepted ty Htype) in *.
  cbv iota in Hstruct |- *.
  rewrite !bind_ret in *.
  unfold statedReferencePrice in Hpx; rewrite Hty in Hpx.
  assert (Hprice :
    (if toLowerCase ty =? "limit"
     then bind (BaseExchange.positive (W := W) (price params)
                  "Price is required for limit orders and must be greater than 0")
               (fun _ => ret tt)
     else ret tt) = ret tt /\
    match price params with
    | Some p =>
        if (ty =? "market") || falsyNumber p
        then BaseExchange.getCurrentPrice getTicker (String c r)
        else ret p
    | None => BaseExchange.getCurrentPrice getTicker (String c r)
    end w1 = Build_Run (Returned px) w2 t2).
  { destruct Htype as [-> | ->].
    - split; [reflexivity |].
      destruct (price params); exact Hpx.
    - change (toLowerCase "limit" =? "limit") with true in *.
      cbv iota in Hstruct |- *.
      destruct (price params) as [p |]; [| discriminate Hstruct].
      cbn [BaseExchange.positive] in Hstruct |- *.
      destruct (falsyNumber p || PrimFloat.leb p 0%float) eqn:Ep;
        [discriminate Hstruct |].
      apply orb_false_elim in Ep; destruct Ep as [Ep _].
      split.
      + reflexivity.
      + change ("limit" =? "limit") with true in Hpx.
        destruct Hpx as (-> & -> & ->).
        change ("limit" =? "market") with false.
        rewrite Ep; reflexivity. }
  destruct Hprice as [Hstep Hcur].
  rewrite Hstep, bind_ret.
  pose proof (balanceCheck_run numberToString getTicker getBalances
                (String c r) sd ty q (price params) w w1 w2 balance px
                t1 t2 Hbal Hcur) as Hrun.
  destruct (BaseExchange.skipBalanceCheck options) as [[|] |];
    [contradiction Hskip; reflexivity | |];
    exact (balance_guard _ w w2 _ _ (newInsufficientFundsError _) eq_refl
             Hrun).
Qed.

(** The large order of the test suite: 10000 BTC at 50000 against 5000
    free USDT. *)
Lemma validateOrder_balance_check_witness :
  BaseExchange.validateOrder TestExchange.numberToString
      TestExchange.getTicker TestExchange.getBalances
      {| symbol := Some "BTC-USDT"; side := Some "buy";
         type := Some "limit"; quantity := Some 10000%float;
         price := Some 50000%float; timeInForce := Some "GTC" |}
      BaseExchange.defaultOptions TestExchange.empty =
    Build_Run
      (Threw (Taxonomy (newInsufficientFundsError
         "Insufficient USDT balance. Required: 500000000, Available: 5000")))
      TestExchange.empty [CallGetBalances].
Proof.
  refine (validateOrder_balance_check TestExchange.numberToString
            TestExchange.getTicker TestExchange.getBalances
            {| symbol := Some "BTC-USDT"; side := Some "buy";
               type := Some "limit"; quantity := Some 10000%float;
               price := Some 50000%float; timeInForce := Some "GTC" |}
            BaseExchange.defaultOptions
            TestExchange.empty TestExchange.empty TestExchange.empty
            "BTC-USDT" "buy" "limit" 10000%float 50000%float
            {| asset := "USDT"; free := 5000%float; locked := 1000%float;
               total := 6000%float |}
            [CallGetBalances] []
            eq_refl eq_refl eq_refl eq_refl _ _ eq_refl _ eq_refl _).
  - left; reflexivity.
  - right; reflexivity.
  - discriminate.
  - repeat split.
Defined.

(** C2: the balance check does not see the letter case that the
    structural checks accept.  A buy order of 1 BTC-USDT whose type is
    written MARKET and which carries a price of 5 passes the structural
    checks, which lower-case the type before they compare it; the type is
    not limit, so the reference price should be the current price, 50000,
    and 5000 free USDT should not suffice; the balance check, comparing
    the type with [market] as written, takes the order's own price, never
    asks for the current one, and the validation succeeds. *)
Lemma validateOrder_uppercase_market_keeps_price :
  outcome
    (BaseExchange.validateOrder TestExchange.numberToString
       TestExchange.getTicker TestExchange.getBalances
       {| symbol := Some "BTC-USDT"; side := Some "buy";
          type := Some "MARKET"; quantity := Some 1%float;
          price := Some 5%float; timeInForce := None |}
       {| BaseExchange.skipBalanceCheck := Some true |} TestExchange.empty)
    = Returned tt /\
  statedReferencePrice
    {| symbol := Some "BTC-USDT"; side := Some "buy";
       type := Some "MARKET"; quantity := Some 1%float;
       price := Some 5%float; timeInForce := None |} = None /\
  BaseExchange.getBalance TestExchange.getBalances (Some "USDT")
      TestExchange.empty =
    Build_Run
      (Returned {| asset := "USDT"; free := 5000%float;
                   locked := 1000%float; total := 6000%float |})
      TestExchange.empty [CallGetBalances] /\
  BaseExchange.getCurrentPrice TestExchange.getTicker "BTC-USDT"
      TestExchange.empty =
    Build_Run (Returned 50000%float) TestExchange.empty
              [CallGetTicker "BTC-USDT"] /\
  PrimFloat.ltb 5000%float (PrimFloat.mul 1%float 50000%float) = true /\
  BaseExchange.validateOrder TestExchange.numberToString
      TestExchange.getTicker TestExchange.getBalances
      {| symbol := Some "BTC-USDT"; side := Some "buy";
         type := Some "MARKET"; quantity := Some 1%float;
         price := Some 5%float; timeInForce := None |}
      BaseExchange.defaultOptions TestExchange.empty =
    Build_Run (Returned tt) TestExchange.empty [CallGetBalances].
Proof. repeat split. Qed.

(** The same comparison as written decides the side: a limit order to BUY
    1 BTC-USDT at 50000 passes the structural checks and is then checked
    as a sale, against the free BTC and for its quantity alone, and is
    accepted; written in lower case it is refused, 50000 USDT being
    required and 5000 free. *)
Lemma validateOrder_uppercase_buy_checked_as_sell :
  BaseExchange.requiredAsset "BTC-USDT" "BUY" = Some "BTC" /\
  BaseExchange.validateOrder TestExchange.numberToString
      TestExchange.getTicker TestExchange.getBalances
      {| symbol := Some "BTC-USDT"; side := Some "BUY";
         type := Some "limit"; quantity := Some 1%float;
         price := Some 50000%float; timeInForce := None |}
      BaseExchange.defaultOptions TestExchange.empty =
    Build_Run (Returned tt) TestExchange.empty [CallGetBalances] /\
  BaseExchange.validateOrder TestExchange.numberToString
      TestExchange.getTicker TestExchange.getBalances
      {| symbol := Some "BTC-USDT"; side := Some "buy";
         type := Some "limit"; quantity := Some 1%float;
         price := Some 50000%float; timeInForce := None |}
      BaseExchange.defaultOptions TestExchange.empty =
    Build_Run
      (Threw (Taxonomy (newInsufficientFundsError
         "Insufficient USDT balance. Required: 50000, Available: 5000")))
      TestExchange.empty [CallGetBalances].
Proof. repeat split. Qed.

(** * Further properties *)

(** ** Numbers *)

(** [!x || x <= 0] is false exactly when [0 < x]: the number is neither
    zero, nor negative, nor NaN. *)
Lemma rejected_number_iff (x : float) :
  falsyNumber x || PrimFloat.leb x 0%float = false <->
  PrimFloat.ltb 0%float x = true.
Proof.
  unfold falsyNumber.
  rewrite ltb_spec, leb_spec, !eqb_spec.
  change (Prim2SF 0%float) with (S754_zero false).
  unfold SFltb, SFleb, SFeqb.
  destruct (Prim2SF x) as [s | s | | s m e]; try destruct s; cbn;
    split; intro H; try reflexivity; try discriminate.
  all: rewrite Z.compare_refl in *; cbn in *;
       rewrite Pos.compare_cont_refl in *; cbn in *;
       try reflexivity; try discriminate.
Qed.

Lemma accepted_number (x : float) :
  PrimFloat.ltb 0%float x = true ->
  falsyNumber x || PrimFloat.leb x 0%float = false.
Proof. apply rejected_number_iff. Qed.

Lemma rejected_number (x : float) :
  PrimFloat.ltb 0%float x = false ->
  falsyNumber x || PrimFloat.leb x 0%float = true.
Proof.
  intros H.
  destruct (falsyNumber x || PrimFloat.leb x 0%float) eqn:E;
    [reflexivity |].
  apply rejected_number_iff in E; congruence.
Qed.

Lemma nan_spec (x : float) : isNaN x -> Prim2SF x = S754_nan.
Proof.
  unfold isNaN; rewrite eqb_spec; unfold SFeqb.
  destruct (Prim2SF x) as [s | s | | s m e]; cbn;
    try destruct s; try discriminate; try reflexivity.
  all: rewrite Z.compare_refl, Pos.compare_cont_refl; discriminate.
Qed.

Lemma nothing_below_nan (x y : float) :
  isNaN y -> PrimFloat.ltb x y = false.
Proof.
  intros H; rewrite ltb_spec, (nan_spec y H); unfold SFltb.
  destruct (Prim2SF x); reflexivity.
Qed.

Lemma nan_below_nothing (x y : float) :
  isNaN x -> PrimFloat.ltb x y = false.
Proof.
  intros H; rewrite ltb_spec, (nan_spec x H); reflexivity.
Qed.

Lemma product_with_nan (x y : float) :
  isNaN y -> isNaN (PrimFloat.mul x y).
Proof.
  intros H; unfold isNaN.
  rewrite eqb_spec, mul_spec, (nan_spec y H).
  unfold SF64mul, SFmul.
  destruct (Prim2SF x); reflexivity.
Qed.

(** ** More on handleError *)




(** Whatever it is given, [handleError] throws an instance of the four
    classes. *)
Lemma handleError_throws (e : Thrown) (d : string) :
  exists t : TaxonomyError,
    BaseExchange.handleError e d = Threw (Taxonomy t).
Proof.
  destruct e as [e0 | msg [c |] | m c]; cbn [BaseExchange.handleError];
    try (eexists; reflexivity).
  destruct (c =? "AUTH_ERROR");
    [| destruct (c =? "INVALID_ORDER");
       [| destruct (c =? "INSUFFICIENT_FUNDS");
          [| destruct (c =? "NOT_FOUND")]]];
    eexists; reflexivity.
Qed.

(** An instance of the four classes goes through unchanged. *)
Lemma handleError_taxonomy (t : TaxonomyError) (d : string) :
  BaseExchange.handleError (Taxonomy t) d = Threw (Taxonomy t).
Proof. reflexivity. Qed.

(** ** More on makeRequest *)

Ltac split_ifs :=
  repeat match goal with
         | |- context [if ?b then _ else _] => destruct b eqn:?
         end.

(** X3: whenever [makeRequest] fails on a response it received, the
    failure is an instance of the four classes and carries a machine
    code. *)
Theorem makeRequest_failure_carries_code (url : string)
    (r : Request.Response) (t : Thrown) :
  Request.makeRequest url (Request.Resolves r) = Threw t ->
  exists (e : TaxonomyError) (c : string),
    t = Taxonomy e /\ Errors.code e = Some c.
Proof.
  unfold Request.makeRequest, Request.inspect, Request.byResponseCode,
    Request.nullProperty.
  destruct (Request.json r) as [| | data]; split_ifs; intros H;
    inversion H; subst; eexists; eexists; split; reflexivity.
Qed.

Lemma makeRequest_failure_carries_code_witness :
  exists (e : TaxonomyError) (c : string),
    Taxonomy (newExchangeError "Failed to fetch" (Some "NETWORK_ERROR")
                               (Some 500%Z)) = Taxonomy e /\
    Errors.code e = Some c.
Proof.
  apply (makeRequest_failure_carries_code "https://invalid-url/markets"
           {| Request.ok := false; Request.status := 500%Z;
              Request.json :=
                Request.JsonData
                  {| Request.error := Some "Failed to fetch";
                     Request.code := Some "NETWORK_ERROR" |} |}).
  reflexivity.
Defined.

(** X4: [makeRequest] returns the parsed body exactly when the response is
    ok, its status is neither 404 nor 401, the body parsed to a value
    other than [null], and the body carries neither the code AUTH_ERROR
    nor an error text.  In particular an ok response whose body has an
    error text is a failure, and a rejected [fetch] never returns. *)
Theorem makeRequest_returns_iff (url : string) (f : Request.Fetched)
    (d : Request.Body) :
  Request.makeRequest url f = Returned d <->
  exists r : Request.Response,
    f = Request.Resolves r /\
    Request.json r = Request.JsonData d /\
    Request.ok r = true /\
    Request.status r <> 404%Z /\ Request.status r <> 401%Z /\
    Request.code d <> Some "AUTH_ERROR" /\
    truthyString (Request.error d) = false.
Proof.
  split.
  - destruct f as [reason | r].
    + destruct reason; cbn; discriminate.
    + unfold Request.makeRequest, Request.inspect, Request.byResponseCode,
        Request.nullProperty.
      destruct (negb (Request.ok r) && (Request.status r =? 0)%Z) eqn:E0;
        [discriminate |].
      destruct (Request.json r) as [| | data] eqn:Ej;
        [discriminate | split_ifs; discriminate |].
      destruct (Request.status r =? 404)%Z eqn:E404;
        [split_ifs; discriminate |].
      destruct ((Request.status r =? 401)%Z
                || Request.isCode data "AUTH_ERROR") eqn:Eauth;
        [discriminate |].
      destruct (negb (Request.ok r) || truthyString (Request.error data))
        eqn:Eerr; [split_ifs; discriminate |].
      intros H; inversion H; subst d.
      apply orb_false_elim in Eauth; destruct Eauth as [E401 Ecode].
      apply orb_false_elim in Eerr; destruct Eerr as [Eok Etext].
      apply negb_false_iff in Eok.
      exists r; repeat split; try assumption.
      * apply Z.eqb_neq; assumption.
      * apply Z.eqb_neq; assumption.
      * unfold Request.isCode in Ecode; intros Hc; rewrite Hc in Ecode.
        discriminate.
  - intros (r & -> & Hj & Hok & H404 & H401 & Hcode & Htext).
    unfold Request.makeRequest, Request.inspect.
    apply Z.eqb_neq in H404, H401.
    rewrite Hok, Hj, H404, H401, Htext; cbn.
    unfold Request.isCode.
    destruct (Request.code d) as [c |]; [| reflexivity].
    destruct (c =? "AUTH_ERROR") eqn:E; [| reflexivity].
    apply String.eqb_eq in E; subst c; contradiction Hcode; reflexivity.
Qed.

(** The balances reply of the test setup comes back as it is. *)
Lemma makeRequest_returns_iff_witness :
  Request.makeRequest "https://api.hyperliquid.io/v1/balances"
    (Request.Resolves
       {| Request.ok := true; Request.status := 200%Z;
          Request.json :=
            Request.JsonData {| Request.error := None;
                                Request.code := None |} |})
    = Returned {| Request.error := None; Request.code := None |}.
Proof.
  apply (proj2 (makeRequest_returns_iff _ _ _)).
  eexists; repeat split; cbn; discriminate.
Defined.

(** X5: a response that was reached, is neither a 404 nor a 401, is not
    ok or carries an error text, and whose body has one of the recognised
    codes is mapped by that code: INVALID_ORDER and INVALID_SYMBOL give
    InvalidOrderError, INSUFFICIENT_FUNDS gives InsufficientFundsError,
    and NOT_FOUND gives InvalidOrderError on a URL containing [/orders/]
    and ExchangeError with code NOT_FOUND on any other. *)
Theorem makeRequest_maps_response_code (url : string)
    (r : Request.Response) (data : Request.Body) :
  reached r -> Request.json r = Request.JsonData data ->
  Request.status r <> 404%Z -> Request.status r <> 401%Z ->
  Request.ok r = false \/ truthyString (Request.error data) = true ->
  (Request.code data = Some "INVALID_ORDER" \/
   Request.code data = Some "INVALID_SYMBOL" ->
   raises (Request.makeRequest url (Request.Resolves r))
          InvalidOrderError "INVALID_ORDER") /\
  (Request.code data = Some "INSUFFICIENT_FUNDS" ->
   raises (Request.makeRequest url (Request.Resolves r))
          InsufficientFundsError "INSUFFICIENT_FUNDS") /\
  (Request.code data = Some "NOT_FOUND" ->
   raises (Request.makeRequest url (Request.Resolves r))
          (if includes "/orders/" url then InvalidOrderError
           else ExchangeError)
          (if includes "/orders/" url then "INVALID_ORDER"
           else "NOT_FOUND")).
Proof.
  intros Hreached Hj H404 H401 Hfail.
  assert (Hgate : negb (Request.ok r) || truthyString (Request.error data)
                  = true).
  { destruct Hfail as [-> | ->]; [reflexivity | apply orb_true_r]. }
  apply Z.eqb_neq in H404, H401.
  unfold raises, Request.makeRequest, Request.inspect.
  rewrite (reached_guard r Hreached), Hj, H404, H401.
  unfold Request.byResponseCode, Request.isCode.
  split; [| split].
  - intros [Hc | Hc]; rewrite Hc; cbn; rewrite Hgate; cbn;
      eexists; repeat split.
  - intros Hc; rewrite Hc; cbn; rewrite Hgate; cbn; eexists; repeat split.
  - intros Hc; rewrite Hc; cbn; rewrite Hgate; cbn.
    destruct (includes "/orders/" url); eexists; repeat split.
Qed.

(** The ticker reply of the test setup for an unknown pair. *)
Lemma makeRequest_maps_response_code_witness :
  raises (Request.makeRequest "https://api.hyperliquid.io/v1/ticker/INVALID-PAIR"
            (Request.Resolves
               {| Request.ok := false; Request.status := 400%Z;
                  Request.json :=
                    Request.JsonData
                      {| Request.error := Some "Invalid symbol";
                         Request.code := Some "INVALID_SYMBOL" |} |}))
         InvalidOrderError "INVALID_ORDER".
Proof.
  refine (proj1 (makeRequest_maps_response_code
                   "https://api.hyperliquid.io/v1/ticker/INVALID-PAIR"
                   {| Request.ok := false; Request.status := 400%Z;
                      Request.json :=
                        Request.JsonData
                          {| Request.error := Some "Invalid symbol";
                             Request.code := Some "INVALID_SYMBOL" |} |}
                   {| Request.error := Some "Invalid symbol";
                      Request.code := Some "INVALID_SYMBOL" |}
                   _ eq_refl _ _ _) _).
  - right; cbn; discriminate.
  - cbn; discriminate.
  - cbn; discriminate.
  - left; reflexivity.
  - right; reflexivity.
Defined.

(** X6: a failing response with a code that is not recognised, or with no
    code, becomes a plain ExchangeError that mirrors the response: its
    message is the body's error text, or 'HTTP error! status: N'; its code
    is the body's code, or UNKNOWN_ERROR; its status is the HTTP status. *)
Theorem makeRequest_unrecognised_code (url : string)
    (r : Request.Response) (data : Request.Body) :
  reached r -> Request.json r = Request.JsonData data ->
  Request.status r <> 404%Z -> Request.status r <> 401%Z ->
  Request.ok r = false \/ truthyString (Request.error data) = true ->
  (forall c, Request.code data = Some c ->
             ~ In c ["AUTH_ERROR"; "INVALID_ORDER"; "INSUFFICIENT_FUNDS";
                     "INVALID_SYMBOL"; "NOT_FOUND"]) ->
  Request.makeRequest url (Request.Resolves r) =
    Threw (Taxonomy
      (newExchangeError
         (orElse (Request.error data)
            ("HTTP error! status: " ++ integerToString (Request.status r)))
         (Some (orElse (Request.code data) "UNKNOWN_ERROR"))
         (Some (Request.status r)))).
Proof.
  intros Hreached Hj H404 H401 Hfail Hcode.
  assert (Hgate : negb (Request.ok r) || truthyString (Request.error data)
                  = true).
  { destruct Hfail as [-> | ->]; [reflexivity | apply orb_true_r]. }
  assert (Hnot : forall k,
             In k ["AUTH_ERROR"; "INVALID_ORDER"; "INSUFFICIENT_FUNDS";
                   "INVALID_SYMBOL"; "NOT_FOUND"] ->
             Request.isCode data k = false).
  { intros k Hk; unfold Request.isCode.
    destruct (Request.code data) as [c |] eqn:Ec; [| reflexivity].
    destruct (c =? k) eqn:E; [| reflexivity].
    apply String.eqb_eq in E; subst k.
    exfalso; exact (Hcode c eq_refl Hk). }
  apply Z.eqb_neq in H404, H401.
  unfold Request.makeRequest, Request.inspect.
  rewrite (reached_guard r Hreached), Hj, H404, H401.
  rewrite (Hnot "AUTH_ERROR") by (cbn; tauto).
  cbn [orb]. rewrite Hgate.
  unfold Request.byResponseCode.
  rewrite (Hnot "INVALID_ORDER"), (Hnot "INSUFFICIENT_FUNDS"),
    (Hnot "INVALID_SYMBOL"), (Hnot "NOT_FOUND") by (cbn; tauto).
  reflexivity.
Qed.

(** The reply of the test setup for an unreachable base URL. *)
Lemma makeRequest_unrecognised_code_witness :
  Request.makeRequest "https://invalid-url/markets"
    (Request.Resolves
       {| Request.ok := false; Request.status := 500%Z;
          Request.json :=
            Request.JsonData
              {| Request.error := Some "Failed to fetch";
                 Request.code := Some "NETWORK_ERROR" |} |})
    = Threw (Taxonomy (newExchangeError "Failed to fetch"
                                        (Some "NETWORK_ERROR")
                                        (Some 500%Z))).
Proof.
  refine (makeRequest_unrecognised_code
            "https://invalid-url/markets"
            {| Request.ok := false; Request.status := 500%Z;
               Request.json :=
                 Request.JsonData
                   {| Request.error := Some "Failed to fetch";
                      Request.code := Some "NETWORK_ERROR" |} |}
            {| Request.error := Some "Failed to fetch";
               Request.code := Some "NETWORK_ERROR" |}
            _ eq_refl _ _ _ _).
  - right; cbn; discriminate.
  - cbn; discriminate.
  - cbn; discriminate.
  - left; reflexivity.
  - intros c Hc; inversion Hc; subst c; cbn.
    intros [H | [H | [H | [H | [H | []]]]]]; discriminate.
Defined.

(** X7: a body that parses to [null] is reported as a network failure:
    whatever the status of the response, the first property read throws,
    and the result is ExchangeError with code NETWORK_ERROR and status
    500. *)
Theorem makeRequest_null_body (url : string) (r : Request.Response) :
  reached r -> Request.json r = Request.JsonNull ->
  exists e : TaxonomyError,
    Request.makeRequest url (Request.Resolves r) = Threw (Taxonomy e) /\
    cls e = ExchangeError /\
    Errors.code e = Some "NETWORK_ERROR" /\
    httpStatus e = Some 500%Z.
Proof.
  intros Hreached Hj.
  unfold Request.makeRequest, Request.inspect, Request.nullProperty.
  rewrite (reached_guard r Hreached), Hj.
  split_ifs; eexists; repeat split.
Qed.

Lemma makeRequest_null_body_witness :
  exists e : TaxonomyError,
    Request.makeRequest "https://api.hyperliquid.io/v1/orders/42"
      (Request.Resolves {| Request.ok := true; Request.status := 200%Z;
                           Request.json := Request.JsonNull |})
      = Threw (Taxonomy e) /\
    cls e = ExchangeError /\
    Errors.code e = Some "NETWORK_ERROR" /\
    httpStatus e = Some 500%Z.
Proof.
  apply (makeRequest_null_body "https://api.hyperliquid.io/v1/orders/42"
           {| Request.ok := true; Request.status := 200%Z;
              Request.json := Request.JsonNull |}).
  - left; reflexivity.
  - reflexivity.
Defined.

(** X8: when the body of a reached response carries an error text, the
    request fails, whatever the status, and the failure's message is that
    text. *)
Theorem makeRequest_keeps_error_text (url : string)
    (r : Request.Response) (data : Request.Body) (text : string) :
  reached r -> Request.json r = Request.JsonData data ->
  Request.error data = Some text -> text <> "" ->
  exists e : TaxonomyError,
    Request.makeRequest url (Request.Resolves r) = Threw (Taxonomy e) /\
    message e = text.
Proof.
  intros Hreached Hj Herr Hne.
  assert (Hor : forall d', orElse (Request.error data) d' = text).
  { intros d'; rewrite Herr; destruct text; [contradiction | reflexivity]. }
  assert (Htruthy : truthyString (Request.error data) = true).
  { rewrite Herr; destruct text; [contradiction | reflexivity]. }
  unfold Request.makeRequest, Request.inspect, Request.byResponseCode.
  rewrite (reached_guard r Hreached), Hj, Htruthy, orb_true_r.
  split_ifs; eexists; (split; [reflexivity |]); cbn; apply Hor.
Qed.

Lemma makeRequest_keeps_error_text_witness :
  exists e : TaxonomyError,
    Request.makeRequest "https://api.hyperliquid.io/v1/balances"
      (Request.Resolves
         {| Request.ok := false; Request.status := 401%Z;
            Request.json :=
              Request.JsonData
                {| Request.error := Some "Missing API key";
                   Request.code := Some "AUTH_ERROR" |} |})
      = Threw (Taxonomy e) /\
    message e = "Missing API key".
Proof.
  refine (makeRequest_keeps_error_text
            "https://api.hyperliquid.io/v1/balances"
            {| Request.ok := false; Request.status := 401%Z;
               Request.json :=
                 Request.JsonData
                   {| Request.error := Some "Missing API key";
                      Request.code := Some "AUTH_ERROR" |} |}
            {| Request.error := Some "Missing API key";
               Request.code := Some "AUTH_ERROR" |}
            "Missing API key" _ eq_refl eq_refl _).
  - right; cbn; discriminate.
  - discriminate.
Defined.

(** ** Lookups of the base class *)

Lemma find_first {A} (f : A -> bool) (l : list A) (b : A) :
  find f l = Some b <->
  exists pre post : list A,
    l = (pre ++ b :: post)%list /\ f b = true /\
    forall x, In x pre -> f x = false.
Proof.
  induction l as [| x l IH]; cbn.
  - split; [discriminate |].
    intros (pre & post & H & _); destruct pre; discriminate.
  - destruct (f x) eqn:Ex.
    + split.
      * intros H; inversion H; subst x.
        exists [], l; repeat split; [assumption | intros ? []].
      * intros ([| y pre] & post & H & Hb & Hpre); inversion H; subst.
        -- reflexivity.
        -- rewrite (Hpre y (or_introl eq_refl)) in Ex; discriminate.
    + rewrite IH; split.
      * intros (pre & post & -> & Hb & Hpre).
        exists (x :: pre), post; repeat split; [assumption |].
        intros y [<- | Hy]; [assumption | apply Hpre; assumption].
      * intros ([| y pre] & post & H & Hb & Hpre); inversion H; subst.
        -- congruence.
        -- exists pre, post; repeat split; [assumption |].
           intros z Hz; apply Hpre; right; assumption.
Qed.

Lemma find_none {A} (f : A -> bool) (l : list A) :
  find f l = None <-> forall x, In x l -> f x = false.
Proof.
  split.
  - intros H x Hx; exact (find_none f l H x Hx).
  - intros H; induction l as [| x l IH]; [reflexivity |]; cbn.
    rewrite (H x (or_introl eq_refl)).
    apply IH; intros y Hy; apply H; right; assumption.
Qed.

Section Lookups.

Context {W : Type}.
Variable getTicker : string -> M W Ticker.
Variable getBalances : M W (list Balance).

Lemma getBalance_answered (wanted : option string) (w w1 : W)
    (l : list Balance) (t1 : list Event) :
  getBalances w = Build_Run (Returned l) w1 t1 ->
  BaseExchange.getBalance getBalances wanted w =
    Build_Run
      (match find (BaseExchange.assetIs wanted) l with
       | Some b => Returned b
       | None =>
           Threw (BaseExchange.invalidOrder
                    ("Balance not found for asset " ++ interpolate wanted))
       end)
      w1 (CallGetBalances :: t1).
Proof.
  intros Hl; unfold BaseExchange.getBalance.
  pose proof (bind_returned _
    (fun balances =>
       match find (BaseExchange.assetIs wanted) balances with
       | Some balance => ret balance
       | None =>
           throw (BaseExchange.invalidOrder
                    ("Balance not found for asset " ++ interpolate wanted))
       end) _ _ _ _ (invoke_run CallGetBalances _ _ _ _ _ Hl)) as Hrun.
  cbv beta in Hrun.
  destruct (find (BaseExchange.assetIs wanted) l) as [b |] eqn:Ef; cbn [outcome world calls ret throw] in Hrun;
    rewrite app_nil_r in Hrun.
  - apply (tryCatch_returned _ _ _ _ _ _ Hrun).
  - rewrite (tryCatch_threw _ _ _ _ _ _ Hrun); cbn.
    rewrite app_nil_r; reflexivity.
Qed.

Lemma getBalance_refused (wanted : option string) (w w1 : W)
    (e : Thrown) (t1 : list Event) :
  getBalances w = Build_Run (Threw e) w1 t1 ->
  exists t : TaxonomyError,
    BaseExchange.handleError e
      ("Failed to get balance for " ++ interpolate wanted)
      = Threw (Taxonomy t) /\
    BaseExchange.getBalance getBalances wanted w =
      Build_Run (Threw (Taxonomy t)) w1 (CallGetBalances :: t1).
Proof.
  intros He.
  destruct (handleError_throws e
              ("Failed to get balance for " ++ interpolate wanted))
    as (t & Ht).
  exists t; split; [exact Ht |].
  unfold BaseExchange.getBalance.
  rewrite (tryCatch_threw _ _ _ _ _ _
             (bind_threw _ _ _ _ _ _ (invoke_run _ _ _ _ _ _ He))).
  rewrite Ht; cbn. rewrite app_nil_r; reflexivity.
Qed.

Lemma getCurrentPrice_answered (sym : string) (w w1 : W) (ticker : Ticker)
    (t1 : list Event) :
  getTicker sym w = Build_Run (Returned ticker) w1 t1 ->
  BaseExchange.getCurrentPrice getTicker sym w =
    Build_Run (Returned (lastPrice ticker)) w1 (CallGetTicker sym :: t1).
Proof.
  intros Ht; unfold BaseExchange.getCurrentPrice.
  apply tryCatch_returned.
  rewrite (bind_returned _ _ _ _ _ _ (invoke_run _ _ _ _ _ _ Ht)).
  cbn. rewrite app_nil_r; reflexivity.
Qed.

Lemma getCurrentPrice_refused (sym : string) (w w1 : W) (e : Thrown)
    (t1 : list Event) :
  getTicker sym w = Build_Run (Threw e) w1 t1 ->
  exists t : TaxonomyError,
    BaseExchange.handleError e ("Failed to get current price for " ++ sym)
      = Threw (Taxonomy t) /\
    BaseExchange.getCurrentPrice getTicker sym w =
      Build_Run (Threw (Taxonomy t)) w1 (CallGetTicker sym :: t1).
Proof.
  intros He.
  destruct (handleError_throws e ("Failed to get current price for " ++ sym))
    as (t & Ht).
  exists t; split; [exact Ht |].
  unfold BaseExchange.getCurrentPrice.
  rewrite (tryCatch_threw _ _ _ _ _ _
             (bind_threw _ _ _ _ _ _ (invoke_run _ _ _ _ _ _ He))).
  rewrite Ht; cbn. rewrite app_nil_r; reflexivity.
Qed.

Lemma getBalance_throws_taxonomy (wanted : option string) (w : W)
    (t : Thrown) :
  outcome (BaseExchange.getBalance getBalances wanted w) = Threw t ->
  exists e, t = Taxonomy e.
Proof.
  destruct (getBalances w) as [[l | e] w1 t1] eqn:E.
  - rewrite (getBalance_answered wanted w w1 l t1 E); cbn [outcome].
    destruct (find _ l); intros H; inversion H;
      unfold BaseExchange.invalidOrder; eauto.
  - destruct (getBalance_refused wanted w w1 e t1 E) as (x & _ & ->); cbn.
    intros H; inversion H; eauto.
Qed.

Lemma getCurrentPrice_throws_taxonomy (sym : string) (w : W) (t : Thrown) :
  outcome (BaseExchange.getCurrentPrice getTicker sym w) = Threw t ->
  exists e, t = Taxonomy e.
Proof.
  destruct (getTicker sym w) as [[k | e] w1 t1] eqn:E.
  - rewrite (getCurrentPrice_answered sym w w1 k t1 E); cbn; discriminate.
  - destruct (getCurrentPrice_refused sym w w1 e t1 E) as (x & _ & ->); cbn.
    intros H; inversion H; eauto.
Qed.

End Lookups.

(** X9: when [getBalances] answers with a list, [getBalance] returns its
    first entry for the asset asked for, later entries for the same asset
    being ignored; when the list has no entry for the asset, it fails with
    the InvalidOrderError 'Balance not found for asset ...'.  Either way
    one [getBalances] call is made. *)
Theorem getBalance_first_match {W : Type}
    (getBalances : M W (list Balance)) (a : string) (w w1 : W)
    (l : list Balance) (t1 : list Event) :
  getBalances w = Build_Run (Returned l) w1 t1 ->
  (forall b,
      BaseExchange.getBalance getBalances (Some a) w =
        Build_Run (Returned b) w1 (CallGetBalances :: t1) <->
      exists pre post : list Balance,
        l = (pre ++ b :: post)%list /\ asset b = a /\
        forall x, In x pre -> asset x <> a) /\
  ((forall x, In x l -> asset x <> a) ->
   BaseExchange.getBalance getBalances (Some a) w =
     Build_Run
       (Threw (Taxonomy (newInvalidOrderError
                           ("Balance not found for asset " ++ a))))
       w1 (CallGetBalances :: t1)).
Proof.
  intros Hl.
  rewrite (getBalance_answered getBalances (Some a) w w1 l t1 Hl).
  split.
  - intros b; split.
    + intros H.
      destruct (find (BaseExchange.assetIs (Some a)) l) as [b' |] eqn:Ef;
        inversion H; subst b'.
      apply find_first in Ef; destruct Ef as (pre & post & -> & Hb & Hpre).
      exists pre, post; repeat split.
      * apply String.eqb_eq; exact Hb.
      * intros x Hx; apply String.eqb_neq; exact (Hpre x Hx).
    + intros (pre & post & -> & Hb & Hpre).
      assert (Ef : find (BaseExchange.assetIs (Some a))
                     (pre ++ b :: post)%list = Some b).
      { apply find_first; exists pre, post; repeat split.
        - apply String.eqb_eq; exact Hb.
        - intros x Hx; apply String.eqb_neq; exact (Hpre x Hx). }
      rewrite Ef; reflexivity.
  - intros Hnone.
    assert (Ef : find (BaseExchange.assetIs (Some a)) l = None).
    { apply find_none; intros x Hx; apply String.eqb_neq; exact (Hnone x Hx). }
    rewrite Ef; reflexivity.
Qed.

(** The USDT balance of the test exchange stands second in the list. *)
Lemma getBalance_first_match_witness :
  BaseExchange.getBalance TestExchange.getBalances (Some "USDT")
      TestExchange.empty =
    Build_Run
      (Returned {| asset := "USDT"; free := 5000%float;
                   locked := 1000%float; total := 6000%float |})
      TestExchange.empty [CallGetBalances].
Proof.
  apply (proj1 (getBalance_first_match TestExchange.getBalances "USDT"
                  TestExchange.empty TestExchange.empty _ [] eq_refl)).
  exists [ {| asset := "BTC"; free := 1%float; locked := 0.1%float;
              total := 1.1%float |} ], [].
  repeat split.
  intros x [<- | []]; discriminate.
Defined.

(** ** More on validation *)

Section Structure.

Context {W : Type}.
Variable numberToString : float -> string.
Variable getTicker : string -> M W Ticker.
Variable getBalances : M W (list Balance).

(** [validateOrder] is its structural checks, which touch nothing,
    followed by the balance check unless that is skipped. *)
Lemma validateOrder_structure (params : OrderParams)
    (options : BaseExchange.ValidateOptions) (w : W) :
  BaseExchange.validateOrder numberToString getTicker getBalances
      params options w =
    match structure params with
    | inl msg => Build_Run (Threw (BaseExchange.invalidOrder msg)) w []
    | inr (sym, sd, ty, q) =>
        match BaseExchange.skipBalanceCheck options with
        | Some true => Build_Run (Returned tt) w []
        | _ =>
            tryCatch
              (BaseExchange.balanceCheck numberToString getTicker
                 getBalances sym sd ty q (price params))
              (fun error =>
                 if instanceOf InsufficientFundsError error then throw error
                 else rethrow (BaseExchange.handleError error
                                 "Failed to validate balance")) w
        end
    end.
Proof.
  unfold BaseExchange.validateOrder, structure.
  destruct (symbol params) as [[| c0 r0] |]; try reflexivity.
  cbn [BaseExchange.present]; rewrite bind_ret.
  destruct (side params) as [[| c1 r1] |]; try reflexivity.
  cbn [BaseExchange.present]; rewrite bind_ret.
  destruct (type params) as [[| c2 r2] |]; try reflexivity.
  cbn [BaseExchange.present]; rewrite bind_ret.
  destruct (quantity params) as [q |]; [| reflexivity].
  cbn [BaseExchange.positive].
  destruct (falsyNumber q || PrimFloat.leb q 0%float); [reflexivity |].
  rewrite bind_ret.
  destruct (arrayIncludes ["buy"; "sell"] (toLowerCase (String c1 r1)));
    [| reflexivity].
  cbn [negb]; rewrite bind_ret.
  destruct (arrayIncludes ["market"; "limit"] (toLowerCase (String c2 r2)));
    [| reflexivity].
  cbn [negb]; rewrite bind_ret.
  destruct (toLowerCase (String c2 r2) =? "limit").
  - destruct (price params) as [p |]; [| reflexivity].
    cbn [BaseExchange.positive].
    destruct (falsyNumber p || PrimFloat.leb p 0%float); [reflexivity |].
    cbv iota.
    change (bind (ret p) (fun _ : float => ret tt)) with (ret (W := W) tt).
    rewrite bind_ret.
    destruct (BaseExchange.skipBalanceCheck options) as [[|] |];
      reflexivity.
  - cbv iota; rewrite bind_ret.
    destruct (BaseExchange.skipBalanceCheck options) as [[|] |];
      reflexivity.
Qed.

End Structure.

Lemma arrayIncludes_two (a b x : string) :
  arrayIncludes [a; b] x = true <-> x = a \/ x = b.
Proof.
  unfold arrayIncludes; cbn.
  rewrite orb_false_r, orb_true_iff, !String.eqb_eq; tauto.
Qed.

(** What an order that passes the structural checks looks like. *)
Lemma structure_passed (params : OrderParams) (sym sd ty : string)
    (q : float) :
  structure params = inr (sym, sd, ty, q) ->
  (symbol params = Some sym /\ sym <> "") /\
  (side params = Some sd /\
   (toLowerCase sd = "buy" \/ toLowerCase sd = "sell")) /\
  (type params = Some ty /\
   (toLowerCase ty = "market" \/ toLowerCase ty = "limit")) /\
  (quantity params = Some q /\ PrimFloat.ltb 0%float q = true) /\
  (toLowerCase ty = "limit" ->
   exists p, price params = Some p /\ PrimFloat.ltb 0%float p = true).
Proof.
  unfold structure.
  destruct (symbol params) as [[| c0 r0] |]; try discriminate.
  destruct (side params) as [[| c1 r1] |]; try discriminate.
  destruct (type params) as [[| c2 r2] |]; try discriminate.
  destruct (quantity params) as [q' |]; [| discriminate].
  destruct (falsyNumber q' || PrimFloat.leb q' 0%float) eqn:Eq;
    [discriminate |].
  destruct (arrayIncludes ["buy"; "sell"] (toLowerCase (String c1 r1)))
    eqn:Esd; [| discriminate].
  destruct (arrayIncludes ["market"; "limit"] (toLowerCase (String c2 r2)))
    eqn:Ety; [| discriminate].
  cbn [negb].
  apply arrayIncludes_two in Esd, Ety.
  apply rejected_number_iff in Eq.
  destruct (toLowerCase (String c2 r2) =? "limit") eqn:Elim.
  - destruct (price params) as [p |]; [| discriminate].
    destruct (falsyNumber p || PrimFloat.leb p 0%float) eqn:Ep;
      [discriminate |].
    apply rejected_number_iff in Ep.
    intros H; inversion H; subst.
    repeat split; try assumption; try discriminate.
    intros _; exists p; split; [reflexivity | assumption].
  - intros H; inversion H; subst.
    repeat split; try assumption; try discriminate.
    intros Hl; rewrite Hl in Elim; discriminate.
Qed.

Section Verdicts.

Context {W : Type}.
Variable numberToString : float -> string.
Variable getTicker : string -> M W Ticker.
Variable getBalances : M W (list Balance).

(** An order passes the structural checks exactly when [structure] finds
    nothing to report. *)
Lemma passes_structure (params : OrderParams) (w : W) :
  outcome (BaseExchange.validateOrder numberToString getTicker getBalances
             params {| BaseExchange.skipBalanceCheck := Some true |} w)
    = Returned tt ->
  exists sym sd ty q, structure params = inr (sym, sd, ty, q).
Proof.
  rewrite validateOrder_structure.
  destruct (structure params) as [msg | [[[sym sd] ty] q]];
    [discriminate | eauto].
Qed.

(** The [catch] clause of the balance check changes nothing in a failure
    that is already an instance of the four classes. *)
Lemma balance_catch_taxonomy (e : TaxonomyError) (w : W) :
  (if instanceOf InsufficientFundsError (Taxonomy e)
   then throw (Taxonomy e)
   else rethrow (BaseExchange.handleError (Taxonomy e)
                   "Failed to validate balance")) w =
    Build_Run (Threw (Taxonomy e) : Outcome unit) w [].
Proof. destruct (instanceOf InsufficientFundsError (Taxonomy e)); reflexivity. Qed.

End Verdicts.

(** X10: with [skipBalanceCheck] set, the verdict of [validateOrder]
    depends on the order alone: on every exchange and in every state it is
    the same, no adapter method is called and the state is left as it
    was. *)
Theorem validateOrder_skipping_touches_nothing (params : OrderParams) :
  exists verdict : Outcome unit,
    forall (W : Type) (numberToString : float -> string)
           (getTicker : string -> M W Ticker)
           (getBalances : M W (list Balance)) (w : W),
      BaseExchange.validateOrder numberToString getTicker getBalances
          params {| BaseExchange.skipBalanceCheck := Some true |} w =
        Build_Run verdict w [].
Proof.
  exists (match structure params with
          | inl msg => Threw (BaseExchange.invalidOrder msg)
          | inr _ => Returned tt
          end).
  intros W nts gt gb w.
  rewrite validateOrder_structure.
  destruct (structure params) as [msg | [[[sym sd] ty] q]]; reflexivity.
Qed.

(** X11: an order that [validateOrder] accepts, with or without the balance
    check, has a non-empty symbol, a side that is buy or sell and a type
    that is market or limit when lower-cased, a quantity above 0, and, if
    the type is limit, a price above 0. *)
Theorem validateOrder_accepts_only_well_formed {W : Type}
    (numberToString : float -> string)
    (getTicker : string -> M W Ticker) (getBalances : M W (list Balance))
    (params : OrderParams) (options : BaseExchange.ValidateOptions)
    (w : W) :
  outcome (BaseExchange.validateOrder numberToString getTicker getBalances
             params options w) = Returned tt ->
  isPresent (symbol params) /\
  (exists sd, side params = Some sd /\
              (toLowerCase sd = "buy" \/ toLowerCase sd = "sell")) /\
  (exists ty, type params = Some ty /\
              (toLowerCase ty = "market" \/ toLowerCase ty = "limit") /\
              (toLowerCase ty = "limit" ->
               exists p, price params = Some p /\
                         PrimFloat.ltb 0%float p = true)) /\
  (exists q, quantity params = Some q /\ PrimFloat.ltb 0%float q = true).
Proof.
  rewrite validateOrder_structure.
  destruct (structure params) as [msg | [[[sym sd] ty] q]] eqn:Es;
    [discriminate |].
  intros _.
  destruct (structure_passed params sym sd ty q Es)
    as ((Hsym & Hne) & (Hsd & Hside) & (Hty & Htype) & (Hq & Hpos) & Hlim).
  split; [exists sym; split; assumption |].
  split; [exists sd; split; assumption |].
  split; [exists ty; repeat split; assumption |].
  exists q; split; assumption.
Qed.

(** The limit order of the test suite is accepted. *)
Lemma validateOrder_accepts_only_well_formed_witness :
  isPresent (Some "BTC-USDT") /\
  (exists sd, Some "buy" = Some sd /\
              (toLowerCase sd = "buy" \/ toLowerCase sd = "sell")) /\
  (exists ty, Some "limit" = Some ty /\
              (toLowerCase ty = "market" \/ toLowerCase ty = "limit") /\
              (toLowerCase ty = "limit" ->
               exists p, Some 50000%float = Some p /\
                         PrimFloat.ltb 0%float p = true)) /\
  (exists q, Some 0.1%float = Some q /\ PrimFloat.ltb 0%float q = true).
Proof.
  apply (validateOrder_accepts_only_well_formed TestExchange.numberToString
           TestExchange.getTicker TestExchange.getBalances
           {| symbol := Some "BTC-USDT"; side := Some "buy";
              type := Some "limit"; quantity := Some 0.1%float;
              price := Some 50000%float; timeInForce := Some "GTC" |}
           BaseExchange.defaultOptions TestExchange.empty).
  reflexivity.
Defined.

Lemma arrayIncludes_two_false (a b x : string) :
  x <> a -> x <> b -> arrayIncludes [a; b] x = false.
Proof.
  intros Ha Hb.
  destruct (arrayIncludes [a; b] x) eqn:E; [| reflexivity].
  apply arrayIncludes_two in E; tauto.
Qed.

(** X12: once symbol, side and type are present and the quantity is above
    0, a side written in ASCII that is neither buy nor sell when
    lower-cased is rejected with 'Invalid side', whatever the type; with a
    valid side, a type written in ASCII that is neither market nor limit
    when lower-cased is rejected with 'Invalid type'.  Neither needs the
    exchange.  The text is taken in ASCII because lower-casing reaches
    further in JavaScript: it turns the Kelvin sign into k, so that a type
    spelled with it is a market order there. *)
Theorem validateOrder_rejects_unknown_side_or_type {W : Type}
    (numberToString : float -> string)
    (getTicker : string -> M W Ticker) (getBalances : M W (list Balance))
    (params : OrderParams) (options : BaseExchange.ValidateOptions)
    (w : W) (sd ty : string) (q : float) :
  isPresent (symbol params) ->
  side params = Some sd -> sd <> "" ->
  type params = Some ty -> ty <> "" ->
  quantity params = Some q -> PrimFloat.ltb 0%float q = true ->
  (isASCII sd = true ->
   toLowerCase sd <> "buy" -> toLowerCase sd <> "sell" ->
   BaseExchange.validateOrder numberToString getTicker getBalances
       params options w =
     Build_Run (Threw (Taxonomy (newInvalidOrderError "Invalid side")))
               w []) /\
  (toLowerCase sd = "buy" \/ toLowerCase sd = "sell" ->
   isASCII ty = true ->
   toLowerCase ty <> "market" -> toLowerCase ty <> "limit" ->
   BaseExchange.validateOrder numberToString getTicker getBalances
       params options w =
     Build_Run (Threw (Taxonomy (newInvalidOrderError "Invalid type")))
               w []).
Proof.
  intros (sym & Hsym & Hne) Hsd Hsdne Hty Htyne Hq Hpos.
  apply accepted_number in Hpos.
  split.
  - intros _ Hb Hs.
    rewrite validateOrder_structure; unfold structure.
    rewrite Hsym, Hsd, Hty, Hq.
    destruct sym; [contradiction |]. destruct sd; [contradiction |].
    destruct ty; [contradiction |].
    rewrite Hpos, (arrayIncludes_two_false _ _ _ Hb Hs); reflexivity.
  - intros Hside _ Hm Hl.
    rewrite validateOrder_structure; unfold structure.
    rewrite Hsym, Hsd, Hty, Hq.
    destruct sym; [contradiction |]. destruct sd; [contradiction |].
    destruct ty; [contradiction |].
    rewrite Hpos, (proj2 (arrayIncludes_two _ _ _) Hside),
      (arrayIncludes_two_false _ _ _ Hm Hl); reflexivity.
Qed.

(** A stop order, its side written Buy. *)
Lemma validateOrder_rejects_unknown_side_or_type_witness :
  BaseExchange.validateOrder TestExchange.numberToString
      TestExchange.getTicker TestExchange.getBalances
      {| symbol := Some "BTC-USDT"; side := Some "Buy";
         type := Some "stop"; quantity := Some 1%float;
         price := None; timeInForce := None |}
      BaseExchange.defaultOptions TestExchange.empty =
    Build_Run (Threw (Taxonomy (newInvalidOrderError "Invalid type")))
              TestExchange.empty [].
Proof.
  refine (proj2 (validateOrder_rejects_unknown_side_or_type
                   TestExchange.numberToString TestExchange.getTicker
                   TestExchange.getBalances
                   {| symbol := Some "BTC-USDT"; side := Some "Buy";
                      type := Some "stop"; quantity := Some 1%float;
                      price := None; timeInForce := None |}
                   BaseExchange.defaultOptions TestExchange.empty
                   "Buy" "stop" 1%float _ eq_refl _ eq_refl _ eq_refl
                   eq_refl) _ eq_refl _ _).
  - exists "BTC-USDT"; split; [reflexivity | discriminate].
  - discriminate.
  - discriminate.
  - left; reflexivity.
  - discriminate.
  - discriminate.
Defined.

(** X13: an order whose type is limit when lower-cased (LIMIT and Limit
    included), and which is otherwise structurally valid, is rejected with
    'Price is required for limit orders and must be greater than 0' when
    its price is absent or not above 0, before any lookup. *)
Theorem validateOrder_limit_requires_price {W : Type}
    (numberToString : float -> string)
    (getTicker : string -> M W Ticker) (getBalances : M W (list Balance))
    (params : OrderParams) (options : BaseExchange.ValidateOptions)
    (w : W) (sd ty : string) (q : float) :
  isPresent (symbol params) ->
  side params = Some sd ->
  toLowerCase sd = "buy" \/ toLowerCase sd = "sell" ->
  type params = Some ty -> toLowerCase ty = "limit" ->
  quantity params = Some q -> PrimFloat.ltb 0%float q = true ->
  (price params = None \/
   exists p, price params = Some p /\ PrimFloat.ltb 0%float p = false) ->
  BaseExchange.validateOrder numberToString getTicker getBalances
      params options w =
    Build_Run
      (Threw (Taxonomy (newInvalidOrderError
         "Price is required for limit orders and must be greater than 0")))
      w [].
Proof.
  intros (sym & Hsym & Hne) Hsd Hside Hty Hlim Hq Hpos Hprice.
  apply accepted_number in Hpos.
  rewrite validateOrder_structure; unfold structure.
  rewrite Hsym, Hsd, Hty, Hq.
  destruct sym; [contradiction |].
  destruct sd; [destruct Hside; discriminate |].
  destruct ty; [discriminate |].
  rewrite Hpos, (proj2 (arrayIncludes_two _ _ _) Hside), Hlim.
  cbn [negb arrayIncludes existsb String.eqb orb].
  change (arrayIncludes ["market"; "limit"] "limit") with true.
  cbn [negb].
  change ("limit" =? "limit") with true; cbv iota.
  destruct Hprice as [-> | (p & -> & Hp)]; [reflexivity |].
  rewrite (rejected_number p Hp); reflexivity.
Qed.

(** The limit order of the test suite with its price set to zero, the
    type written in capitals. *)
Lemma validateOrder_limit_requires_price_witness :
  BaseExchange.validateOrder TestExchange.numberToString
      TestExchange.getTicker TestExchange.getBalances
      {| symbol := Some "BTC-USDT"; side := Some "buy";
         type := Some "LIMIT"; quantity := Some 0.1%float;
         price := Some 0%float; timeInForce := Some "GTC" |}
      BaseExchange.defaultOptions TestExchange.empty =
    Build_Run
      (Threw (Taxonomy (newInvalidOrderError
         "Price is required for limit orders and must be greater than 0")))
      TestExchange.empty [].
Proof.
  refine (validateOrder_limit_requires_price
            TestExchange.numberToString TestExchange.getTicker
            TestExchange.getBalances
            {| symbol := Some "BTC-USDT"; side := Some "buy";
               type := Some "LIMIT"; quantity := Some 0.1%float;
               price := Some 0%float; timeInForce := Some "GTC" |}
            BaseExchange.defaultOptions TestExchange.empty
            "buy" "LIMIT" 0.1%float _ eq_refl _ eq_refl eq_refl eq_refl
            eq_refl _).
  - exists "BTC-USDT"; split; [reflexivity | discriminate].
  - left; reflexivity.
  - right; exists 0%float; split; reflexivity.
Defined.

(** X14: no raw failure leaves the shared layer: whatever the adapter's
    [getBalances] and [getTicker] throw, a failure of [getBalance], of
    [getCurrentPrice] or of [validateOrder] is an instance of one of the
    four classes. *)
Theorem shared_layer_throws_only_taxonomy {W : Type}
    (numberToString : float -> string)
    (getTicker : string -> M W Ticker) (getBalances : M W (list Balance))
    (w : W) (t : Thrown) :
  (exists wanted,
      outcome (BaseExchange.getBalance getBalances wanted w) = Threw t) \/
  (exists sym,
      outcome (BaseExchange.getCurrentPrice getTicker sym w) = Threw t) \/
  (exists params options,
      outcome (BaseExchange.validateOrder numberToString getTicker
                 getBalances params options w) = Threw t) ->
  exists e : TaxonomyError, t = Taxonomy e.
Proof.
  intros [(wanted & H) | [(sym & H) | (params & options & H)]].
  - exact (getBalance_throws_taxonomy getBalances wanted w t H).
  - exact (getCurrentPrice_throws_taxonomy getTicker sym w t H).
  - rewrite validateOrder_structure in H.
    destruct (structure params) as [msg | [[[sym sd] ty] q]].
    + inversion H; unfold BaseExchange.invalidOrder; eauto.
    + assert (Hcatch : forall t' w1,
        exists e,
          outcome
            ((if instanceOf InsufficientFundsError t' then throw t'
              else rethrow (BaseExchange.handleError t'
                              "Failed to validate balance"))
               w1 : Run W unit) = Threw (Taxonomy e)).
      { intros t' w1; destruct t' as [e | m c | m c].
        - exists e; rewrite balance_catch_taxonomy; reflexivity.
        - cbn [instanceOf].
          destruct (handleError_throws (OtherError m c)
                      "Failed to validate balance") as (x & ->).
          exists x; reflexivity.
        - cbn [instanceOf].
          destruct (handleError_throws (NotAnError m c)
                      "Failed to validate balance") as (x & ->).
          exists x; reflexivity. }
      destruct (BaseExchange.skipBalanceCheck options) as [[|] |];
        [discriminate | |];
        unfold tryCatch in H;
        destruct (BaseExchange.balanceCheck numberToString getTicker
                    getBalances sym sd ty q (price params) w)
          as [[u | t'] w1 t1]; cbn [outcome world calls] in H;
        try discriminate;
        destruct (Hcatch t' w1) as (e & He); rewrite He in H;
        inversion H; eauto.
Qed.

(** The ticker lookup for an unknown pair on the test exchange fails with
    an InvalidOrderError. *)
Lemma shared_layer_throws_only_taxonomy_witness :
  exists e : TaxonomyError,
    Taxonomy (newInvalidOrderError "Invalid symbol") = Taxonomy e.
Proof.
  apply (shared_layer_throws_only_taxonomy TestExchange.numberToString
           TestExchange.getTicker TestExchange.getBalances
           TestExchange.empty).
  right; left; exists "INVALID-PAIR"; reflexivity.
Defined.

Section CheckedBalance.

Context {W : Type}.
Variable numberToString : float -> string.
Variable getTicker : string -> M W Ticker.
Variable getBalances : M W (list Balance).

(** For an order that passes the structural checks and is validated with
    the balance check, validation is the guarded balance check on the
    order's own symbol, side, type and quantity. *)
Lemma validateOrder_checks_balance (params : OrderParams)
    (options : BaseExchange.ValidateOptions) (w : W) (sym sd : string) :
  outcome (BaseExchange.validateOrder numberToString getTicker getBalances
             params {| BaseExchange.skipBalanceCheck := Some true |} w)
    = Returned tt ->
  symbol params = Some sym -> side params = Some sd ->
  BaseExchange.skipBalanceCheck options <> Some true ->
  exists ty q,
    type params = Some ty /\ quantity params = Some q /\
    (toLowerCase ty = "limit" -> exists p, price params = Some p) /\
    BaseExchange.validateOrder numberToString getTicker getBalances
        params options w =
      tryCatch
        (BaseExchange.balanceCheck numberToString getTicker getBalances
           sym sd ty q (price params))
        (fun error =>
           if instanceOf InsufficientFundsError error then throw error
           else rethrow (BaseExchange.handleError error
                           "Failed to validate balance")) w.
Proof.
  intros Hpass Hsym Hsd Hskip.
  destruct (passes_structure _ _ _ _ _ Hpass) as (sym' & sd' & ty & q & Es).
  destruct (structure_passed _ _ _ _ _ Es)
    as ((Hsym' & _) & (Hsd' & _) & (Hty & _) & (Hq & _) & Hlim).
  assert (sym' = sym) by congruence; assert (sd' = sd) by congruence.
  subst sym' sd'.
  exists ty, q; repeat split; try assumption.
  - intros Hl; destruct (Hlim Hl) as (p & Hp & _); eauto.
  - rewrite validateOrder_structure, Es.
    destruct (BaseExchange.skipBalanceCheck options) as [[|] |];
      [contradiction Hskip; reflexivity | |]; reflexivity.
Qed.

Lemma guarded_failure (m : M W unit) (w w1 : W) (e : TaxonomyError)
    (t1 : list Event) :
  m w = Build_Run (Threw (Taxonomy e)) w1 t1 ->
  tryCatch m
    (fun error =>
       if instanceOf InsufficientFundsError error then throw error
       else rethrow (BaseExchange.handleError error
                       "Failed to validate balance")) w =
    Build_Run (Threw (Taxonomy e)) w1 t1.
Proof.
  intros Hm.
  rewrite (tryCatch_threw _ _ _ _ _ _ Hm), balance_catch_taxonomy.
  cbn [outcome world calls]. rewrite app_nil_r; reflexivity.
Qed.

End CheckedBalance.

(** X15: a failure of the balance lookup, or of the price lookup of an
    order without a price, is what [validateOrder] fails with, unchanged
    and with no further call: the lookups have already normalized it, so
    the default message 'Failed to validate balance' is not applied. *)
Theorem validateOrder_lookup_failure_surfaces {W : Type}
    (numberToString : float -> string)
    (getTicker : string -> M W Ticker) (getBalances : M W (list Balance))
    (params : OrderParams) (options : BaseExchange.ValidateOptions)
    (w : W) (sym sd : string) :
  outcome (BaseExchange.validateOrder numberToString getTicker getBalances
             params {| BaseExchange.skipBalanceCheck := Some true |} w)
    = Returned tt ->
  symbol params = Some sym -> side params = Some sd ->
  BaseExchange.skipBalanceCheck options <> Some true ->
  (forall t w1 t1,
      BaseExchange.getBalance getBalances
          (BaseExchange.requiredAsset sym sd) w =
        Build_Run (Threw t) w1 t1 ->
      BaseExchange.validateOrder numberToString getTicker getBalances
          params options w = Build_Run (Threw t) w1 t1) /\
  (forall balance w1 t1 t w2 t2,
      BaseExchange.getBalance getBalances
          (BaseExchange.requiredAsset sym sd) w =
        Build_Run (Returned balance) w1 t1 ->
      price params = None ->
      BaseExchange.getCurrentPrice getTicker sym w1 =
        Build_Run (Threw t) w2 t2 ->
      BaseExchange.validateOrder numberToString getTicker getBalances
          params options w = Build_Run (Threw t) w2 (t1 ++ t2)).
Proof.
  intros Hpass Hsym Hsd Hskip.
  destruct (validateOrder_checks_balance numberToString getTicker
              getBalances params options w sym sd Hpass Hsym Hsd Hskip)
    as (ty & q & Hty & Hq & Hlim & ->).
  split.
  - intros t w1 t1 Hbal.
    destruct (getBalance_throws_taxonomy getBalances
                (BaseExchange.requiredAsset sym sd) w t) as (e & ->);
      [rewrite Hbal; reflexivity |].
    apply guarded_failure.
    unfold BaseExchange.balanceCheck.
    apply (bind_threw _ _ _ _ _ _ Hbal).
  - intros balance w1 t1 t w2 t2 Hbal Hnone Hcur.
    destruct (getCurrentPrice_throws_taxonomy getTicker sym w1 t)
      as (e & ->); [rewrite Hcur; reflexivity |].
    apply guarded_failure.
    unfold BaseExchange.balanceCheck.
    rewrite (bind_returned _ _ _ _ _ _ Hbal), Hnone.
    rewrite (bind_threw _ _ _ _ _ _ Hcur).
    reflexivity.
Qed.

(** A market buy on a pair the test exchange has no ticker for: the
    failure of the price lookup is the failure of the validation. *)
Lemma validateOrder_lookup_failure_surfaces_witness :
  BaseExchange.validateOrder TestExchange.numberToString
      TestExchange.getTicker TestExchange.getBalances
      {| symbol := Some "ETH-USDT"; side := Some "buy";
         type := Some "market"; quantity := Some 1%float;
         price := None; timeInForce := None |}
      BaseExchange.defaultOptions TestExchange.empty =
    Build_Run (Threw (Taxonomy (newInvalidOrderError "Invalid symbol")))
              TestExchange.empty [CallGetBalances; CallGetTicker "ETH-USDT"].
Proof.
  refine (proj2 (validateOrder_lookup_failure_surfaces
                   TestExchange.numberToString TestExchange.getTicker
                   TestExchange.getBalances
                   {| symbol := Some "ETH-USDT"; side := Some "buy";
                      type := Some "market"; quantity := Some 1%float;
                      price := None; timeInForce := None |}
                   BaseExchange.defaultOptions TestExchange.empty
                   "ETH-USDT" "buy" eq_refl eq_refl eq_refl _)
                {| asset := "USDT"; free := 5000%float;
                   locked := 1000%float; total := 6000%float |}
                TestExchange.empty [CallGetBalances]
                (Taxonomy (newInvalidOrderError "Invalid symbol"))
                TestExchange.empty [CallGetTicker "ETH-USDT"]
                eq_refl eq_refl eq_refl).
  discriminate.
Defined.

(** X16: a NaN never counts as a shortage.  For an accepted order without
    a price, when the free balance is NaN, or the side is buy and the
    current price is NaN, the balance check lets the order through,
    whatever the quantity. *)
Theorem validateOrder_nan_is_never_short {W : Type}
    (numberToString : float -> string)
    (getTicker : string -> M W Ticker) (getBalances : M W (list Balance))
    (params : OrderParams) (options : BaseExchange.ValidateOptions)
    (w w1 w2 : W) (sym sd : string) (balance : Balance) (px : float)
    (t1 t2 : list Event) :
  outcome (BaseExchange.validateOrder numberToString getTicker getBalances
             params {| BaseExchange.skipBalanceCheck := Some true |} w)
    = Returned tt ->
  symbol params = Some sym -> side params = Some sd ->
  price params = None ->
  BaseExchange.skipBalanceCheck options <> Some true ->
  BaseExchange.getBalance getBalances
      (BaseExchange.requiredAsset sym sd) w =
    Build_Run (Returned balance) w1 t1 ->
  BaseExchange.getCurrentPrice getTicker sym w1 =
    Build_Run (Returned px) w2 t2 ->
  isNaN (free balance) \/ (sd = "buy" /\ isNaN px) ->
  BaseExchange.validateOrder numberToString getTicker getBalances
      params options w = Build_Run (Returned tt) w2 (t1 ++ t2).
Proof.
  intros Hpass Hsym Hsd Hnone Hskip Hbal Hcur Hnan.
  destruct (validateOrder_checks_balance numberToString getTicker
              getBalances params options w sym sd Hpass Hsym Hsd Hskip)
    as (ty & q & Hty & Hq & Hlim & ->).
  apply tryCatch_returned.
  rewrite Hnone in *.
  rewrite (balanceCheck_run numberToString getTicker getBalances
             sym sd ty q None w w1 w2 balance px t1 t2 Hbal Hcur).
  assert (Hlt : PrimFloat.ltb (free balance)
                  (if sd =? "buy" then PrimFloat.mul q px else q) = false).
  { destruct Hnan as [Hfree | [-> Hpx]].
    - apply nan_below_nothing; exact Hfree.
    - change ("buy" =? "buy") with true; cbv iota.
      apply nothing_below_nan, product_with_nan; exact Hpx. }
  rewrite Hlt; reflexivity.
Qed.

(** A market buy of a million BTC against 5000 USDT passes when the
    ticker's price is NaN. *)
Lemma validateOrder_nan_is_never_short_witness :
  BaseExchange.validateOrder TestExchange.numberToString
      TestExchange.garbledTicker TestExchange.getBalances
      {| symbol := Some "BTC-USDT"; side := Some "buy";
         type := Some "market"; quantity := Some 1000000%float;
         price := None; timeInForce := None |}
      BaseExchange.defaultOptions TestExchange.empty =
    Build_Run (Returned tt) TestExchange.empty
              [CallGetBalances; CallGetTicker "BTC-USDT"].
Proof.
  refine (validateOrder_nan_is_never_short
            TestExchange.numberToString TestExchange.garbledTicker
            TestExchange.getBalances
            {| symbol := Some "BTC-USDT"; side := Some "buy";
               type := Some "market"; quantity := Some 1000000%float;
               price := None; timeInForce := None |}
            BaseExchange.defaultOptions
            TestExchange.empty TestExchange.empty TestExchange.empty
            "BTC-USDT" "buy"
            {| asset := "USDT"; free := 5000%float; locked := 1000%float;
               total := 6000%float |}
            PrimFloat.nan [CallGetBalances] [CallGetTicker "BTC-USDT"]
            eq_refl eq_refl eq_refl eq_refl _ eq_refl eq_refl _).
  - discriminate.
  - right; split; reflexivity.
Defined.

(** ** Symbols *)

Lemma dash_prefix (c : ascii) (r : string) :
  String.prefix "-" (String c r) = Ascii.eqb c "-".
Proof.
  change (String.prefix "-" (String c r))
    with (if ascii_dec "-" c then String.prefix "" r else false).
  destruct (ascii_dec "-" c) as [<- | Hne].
  - destruct r; reflexivity.
  - symmetry; apply Ascii.eqb_neq; congruence.
Qed.

Lemma split_dashFree (s : string) : dashFree s -> split "-" s = [s].
Proof.
  unfold dashFree.
  induction s as [| c r IH]; [reflexivity |].
  cbn [includes split]; rewrite dash_prefix.
  destruct (Ascii.eqb c "-"); [discriminate |].
  intros H; rewrite (IH H); reflexivity.
Qed.

Lemma split_pair (b q : string) :
  dashFree b -> split "-" (b ++ String "-" q) = b :: split "-" q.
Proof.
  unfold dashFree.
  induction b as [| c r IH]; [reflexivity |].
  cbn [includes split append]; rewrite dash_prefix.
  destruct (Ascii.eqb c "-"); [discriminate |].
  intros H; rewrite (IH H); reflexivity.
Qed.

(** X17: for a symbol BASE-QUOTE, a buy is checked against QUOTE and any
    other side against BASE; for a symbol with no [-] in it, a buy has no
    asset to be checked against ([undefined]). *)
Theorem requiredAsset_of_pair (base quote : string) :
  dashFree base -> dashFree quote ->
  BaseExchange.requiredAsset (base ++ "-" ++ quote) "buy" = Some quote /\
  (forall sd, sd <> "buy" ->
              BaseExchange.requiredAsset (base ++ "-" ++ quote) sd
                = Some base) /\
  BaseExchange.requiredAsset base "buy" = None.
Proof.
  intros Hb Hq; unfold BaseExchange.requiredAsset.
  change ("-" ++ quote) with (String "-" quote).
  rewrite (split_pair base quote Hb), (split_dashFree quote Hq),
    (split_dashFree base Hb).
  repeat split.
  intros sd Hsd; apply String.eqb_neq in Hsd; rewrite Hsd; reflexivity.
Qed.

Lemma requiredAsset_of_pair_witness :
  BaseExchange.requiredAsset "BTC-USDT" "buy" = Some "USDT" /\
  (forall sd, sd <> "buy" ->
              BaseExchange.requiredAsset "BTC-USDT" sd = Some "BTC") /\
  BaseExchange.requiredAsset "BTC" "buy" = None.
Proof.
  apply (requiredAsset_of_pair "BTC" "USDT"); reflexivity.
Defined.

(** X18: a buy order on a symbol with no [-] in it, otherwise accepted,
    fails the balance check as soon as [getBalances] answers: there is no
    quote asset to look up, and the failure is the InvalidOrderError
    'Balance not found for asset undefined'. *)
Theorem validateOrder_buy_without_quote {W : Type}
    (numberToString : float -> string)
    (getTicker : string -> M W Ticker) (getBalances : M W (list Balance))
    (params : OrderParams) (options : BaseExchange.ValidateOptions)
    (w w1 : W) (sym : string) (l : list Balance) (t1 : list Event) :
  outcome (BaseExchange.validateOrder numberToString getTicker getBalances
             params {| BaseExchange.skipBalanceCheck := Some true |} w)
    = Returned tt ->
  symbol params = Some sym -> dashFree sym ->
  side params = Some "buy" ->
  BaseExchange.skipBalanceCheck options <> Some true ->
  getBalances w = Build_Run (Returned l) w1 t1 ->
  BaseExchange.validateOrder numberToString getTicker getBalances
      params options w =
    Build_Run
      (Threw (Taxonomy (newInvalidOrderError
                          "Balance not found for asset undefined")))
      w1 (CallGetBalances :: t1).
Proof.
  intros Hpass Hsym Hfree Hsd Hskip Hl.
  destruct (validateOrder_checks_balance numberToString getTicker
              getBalances params options w sym "buy" Hpass Hsym Hsd Hskip)
    as (ty & q & Hty & Hq & Hlim & ->).
  apply guarded_failure.
  unfold BaseExchange.balanceCheck.
  apply bind_threw.
  assert (Hasset : BaseExchange.requiredAsset sym "buy" = None)
    by (unfold BaseExchange.requiredAsset;
        rewrite (split_dashFree sym Hfree); reflexivity).
  rewrite Hasset.
  rewrite (getBalance_answered getBalances None w w1 l t1 Hl).
  assert (Hfind : find (BaseExchange.assetIs None) l = None)
    by (apply find_none; reflexivity).
  rewrite Hfind; reflexivity.
Qed.

Lemma validateOrder_buy_without_quote_witness :
  BaseExchange.validateOrder TestExchange.numberToString
      TestExchange.getTicker TestExchange.getBalances
      {| symbol := Some "BTCUSDT"; side := Some "buy";
         type := Some "market"; quantity := Some 1%float;
         price := None; timeInForce := None |}
      BaseExchange.defaultOptions TestExchange.empty =
    Build_Run
      (Threw (Taxonomy (newInvalidOrderError
                          "Balance not found for asset undefined")))
      TestExchange.empty [CallGetBalances].
Proof.
  refine (validateOrder_buy_without_quote
            TestExchange.numberToString TestExchange.getTicker
            TestExchange.getBalances
            {| symbol := Some "BTCUSDT"; side := Some "buy";
               type := Some "market"; quantity := Some 1%float;
               price := None; timeInForce := None |}
            BaseExchange.defaultOptions
            TestExchange.empty TestExchange.empty "BTCUSDT" _ []
            eq_refl eq_refl eq_refl eq_refl _ eq_refl).
  discriminate.
Defined.

(** ** More on closing an order *)

Section ClosingFailures.

Context {W : Type}.
Variable createOrder : OrderParams -> M W Order.
Variable getOrder : string -> string -> M W (option Order).
Variable cancelOrder : string -> string -> M W bool.

(** The [catch] clause of the closers throws what [handleError] makes of
    the failure: an InvalidOrderError, which it rethrows itself, is left
    unchanged by [handleError] too. *)
Lemma close_catch (defaultMessage : string) (e : Thrown) (w : W) :
  exists t : TaxonomyError,
    BaseExchange.handleError e defaultMessage = Threw (Taxonomy t) /\
    (if instanceOf InvalidOrderError e then throw e
     else rethrow (BaseExchange.handleError e defaultMessage)) w =
      Build_Run (Threw (Taxonomy t) : Outcome Order) w [].
Proof.
  destruct (handleError_throws e defaultMessage) as (t & Ht).
  exists t; split; [exact Ht |].
  destruct (instanceOf InvalidOrderError e) eqn:Ei.
  - destruct e as [e0 | |]; try discriminate.
    cbn in Ht; inversion Ht; reflexivity.
  - rewrite Ht; reflexivity.
Qed.

(** A failure before the submission ends the call: what is thrown is what
    [handleError] makes of it, and [createOrder] is not reached. *)
Lemma failure_before_submission (defaultMessage : string)
    (k : Order -> M W Order) (sym id : string) (w w1 : W) (e : Thrown)
    (t1 : list Event) :
  BaseExchange.fetchAndCancel getOrder cancelOrder sym id w =
    Build_Run (Threw e) w1 t1 ->
  exists t : TaxonomyError,
    BaseExchange.handleError e defaultMessage = Threw (Taxonomy t) /\
    bind (tryCatch (BaseExchange.fetchAndCancel getOrder cancelOrder sym id)
            (fun error =>
               if instanceOf InvalidOrderError error then throw error
               else rethrow (BaseExchange.handleError error
                               defaultMessage)))
         k w =
      Build_Run (Threw (Taxonomy t)) w1 t1.
Proof.
  intros Hrun.
  destruct (close_catch defaultMessage e w1) as (t & Ht & Hcatch).
  exists t; split; [exact Ht |].
  apply bind_threw.
  rewrite (tryCatch_threw _ _ _ _ _ _ Hrun), Hcatch.
  cbn [outcome world calls]. rewrite app_nil_r; reflexivity.
Qed.

Lemma fetch_refused (sym id : string) (w w1 : W) (e : Thrown)
    (t1 : list Event) :
  getOrder sym id w = Build_Run (Threw e) w1 t1 ->
  BaseExchange.fetchAndCancel getOrder cancelOrder sym id w =
    Build_Run (Threw e) w1 (CallGetOrder sym id :: t1).
Proof.
  intros Hget; unfold BaseExchange.fetchAndCancel.
  apply (bind_threw _ _ _ _ _ _ (invoke_run _ _ _ _ _ _ Hget)).
Qed.

Lemma cancel_refused (sym id : string) (w w1 w2 : W) (order : Order)
    (e : Thrown) (t1 t2 : list Event) :
  getOrder sym id w = Build_Run (Returned (Some order)) w1 t1 ->
  BaseExchange.hasOrderId order = true ->
  cancelOrder sym id w1 = Build_Run (Threw e) w2 t2 ->
  BaseExchange.fetchAndCancel getOrder cancelOrder sym id w =
    Build_Run (Threw e) w2
              (CallGetOrder sym id :: t1 ++ CallCancelOrder sym id :: t2).
Proof.
  intros Hget Hid Hcancel; unfold BaseExchange.fetchAndCancel.
  rewrite (bind_returned _ _ _ _ _ _ (invoke_run _ _ _ _ _ _ Hget)), Hid.
  rewrite (bind_threw _ _ _ _ _ _ (invoke_run _ _ _ _ _ _ Hcancel)).
  reflexivity.
Qed.

End ClosingFailures.

(** X19: when [getOrder] itself fails, both closers fail with what
    [handleError] makes of that failure (their own default message
    applying when it has none), after the one [getOrder] call: neither
    [cancelOrder] nor [createOrder] is attempted. *)
Theorem closeOrder_fetch_failure {W : Type}
    (createOrder : OrderParams -> M W Order)
    (getOrder : string -> string -> M W (option Order))
    (cancelOrder : string -> string -> M W bool)
    (sym id : string) (limitPrice : float) (w w1 : W) (e : Thrown)
    (t1 : list Event) :
  getOrder sym id w = Build_Run (Threw e) w1 t1 ->
  (exists t : TaxonomyError,
      BaseExchange.handleError e "Failed to close order at market price"
        = Threw (Taxonomy t) /\
      BaseExchange.closeOrderMarket createOrder getOrder cancelOrder
          sym id w =
        Build_Run (Threw (Taxonomy t)) w1 (CallGetOrder sym id :: t1)) /\
  (exists t : TaxonomyError,
      BaseExchange.handleError e "Failed to close order at limit price"
        = Threw (Taxonomy t) /\
      BaseExchange.closeOrderLimit createOrder getOrder cancelOrder
          sym id limitPrice w =
        Build_Run (Threw (Taxonomy t)) w1 (CallGetOrder sym id :: t1)).
Proof.
  intros Hget.
  pose proof (fetch_refused getOrder cancelOrder sym id w w1 e t1 Hget)
    as Hrun.
  split.
  - unfold BaseExchange.closeOrderMarket.
    exact (failure_before_submission getOrder cancelOrder _ _ _ _ _ _ _ _
             Hrun).
  - unfold BaseExchange.closeOrderLimit.
    exact (failure_before_submission getOrder cancelOrder _ _ _ _ _ _ _ _
             Hrun).
Qed.

(** X20: when the order is found but [cancelOrder] fails, both closers
    fail with what [handleError] makes of that failure, and [createOrder]
    is not attempted: no opposite order is opened for an order that could
    not be cancelled. *)
Theorem closeOrder_cancel_failure {W : Type}
    (createOrder : OrderParams -> M W Order)
    (getOrder : string -> string -> M W (option Order))
    (cancelOrder : string -> string -> M W bool)
    (sym id : string) (limitPrice : float) (w w1 w2 : W) (order : Order)
    (e : Thrown) (t1 t2 : list Event) :
  getOrder sym id w = Build_Run (Returned (Some order)) w1 t1 ->
  (exists i, orderId order = Some i /\ i <> "") ->
  cancelOrder sym id w1 = Build_Run (Threw e) w2 t2 ->
  (exists t : TaxonomyError,
      BaseExchange.handleError e "Failed to close order at market price"
        = Threw (Taxonomy t) /\
      BaseExchange.closeOrderMarket createOrder getOrder cancelOrder
          sym id w =
        Build_Run (Threw (Taxonomy t)) w2
          (CallGetOrder sym id :: t1 ++ CallCancelOrder sym id :: t2)) /\
  (exists t : TaxonomyError,
      BaseExchange.handleError e "Failed to close order at limit price"
        = Threw (Taxonomy t) /\
      BaseExchange.closeOrderLimit createOrder getOrder cancelOrder
          sym id limitPrice w =
        Build_Run (Threw (Taxonomy t)) w2
          (CallGetOrder sym id :: t1 ++ CallCancelOrder sym id :: t2)).
Proof.
  intros Hget Hid Hcancel.
  pose proof (cancel_refused getOrder cancelOrder sym id w w1 w2 order e
                t1 t2 Hget (nonempty_id _ Hid) Hcancel) as Hrun.
  split.
  - unfold BaseExchange.closeOrderMarket.
    exact (failure_before_submission getOrder cancelOrder _ _ _ _ _ _ _ _
             Hrun).
  - unfold BaseExchange.closeOrderLimit.
    exact (failure_before_submission getOrder cancelOrder _ _ _ _ _ _ _ _
             Hrun).
Qed.

(** The market close of the resting order, on an exchange where the order
    lookup itself fails. *)
Lemma closeOrder_fetch_failure_witness :
  exists t : TaxonomyError,
    BaseExchange.handleError
      (Taxonomy (newInvalidOrderError "Order not found"))
      "Failed to close order at market price" = Threw (Taxonomy t) /\
    BaseExchange.closeOrderMarket TestExchange.createOrder
        TestExchange.unknownOrder TestExchange.cancelOrder
        "BTC-USDT" "non-existent-id" TestExchange.empty =
      Build_Run (Threw (Taxonomy t)) TestExchange.empty
                [CallGetOrder "BTC-USDT" "non-existent-id"].
Proof.
  apply (proj1 (closeOrder_fetch_failure TestExchange.createOrder
                  TestExchange.unknownOrder TestExchange.cancelOrder
                  "BTC-USDT" "non-existent-id" 51000%float
                  TestExchange.empty TestExchange.empty
                  (Taxonomy (newInvalidOrderError "Order not found"))
                  [] eq_refl)).
Defined.

(** ** The adapter's requests *)

Lemma prefix_append (s t : string) : String.prefix s (s ++ t) = true.
Proof.
  induction s as [| c r IH]; cbn [append].
  - destruct t; reflexivity.
  - change (String.prefix (String c r) (String c (r ++ t)))
      with (if ascii_dec c c then String.prefix r (r ++ t) else false).
    destruct (ascii_dec c c); [exact IH | congruence].
Qed.

Lemma includes_append (needle s t : string) :
  includes needle (s ++ needle ++ t) = true.
Proof.
  induction s as [| c r IH].
  - cbn [append].
    destruct (needle ++ t) eqn:E; cbn [includes];
      rewrite <- E, prefix_append; reflexivity.
  - cbn [append includes].
    destruct (String.prefix needle (String c (r ++ needle ++ t)));
      [reflexivity | exact IH].
Qed.

Section Requests.

Context {W : Type}.
Variable baseUrl : string.
Variable fetch : string -> Hyperliquid.HttpMethod -> W -> Request.Fetched * W.

(** [cancelOrder] is one DELETE on the order's URL; it answers [true] when
    [makeRequest] returns, and throws what [handleError] makes of the
    failure otherwise. *)
Lemma cancelOrder_run (sym id : string) (w : W) :
  Hyperliquid.cancelOrder baseUrl fetch sym id w =
    Build_Run
      (match Request.makeRequest (baseUrl ++ "/orders/" ++ id)
               (fst (fetch (baseUrl ++ "/orders/" ++ id)
                           Hyperliquid.DELETE w)) with
       | Returned _ => Returned true
       | Threw t =>
           match BaseExchange.handleError t "Failed to cancel order" with
           | Returned never => match never with end
           | Threw t' => Threw t'
           end
       end)
      (snd (fetch (baseUrl ++ "/orders/" ++ id) Hyperliquid.DELETE w))
      [].
Proof.
  unfold Hyperliquid.cancelOrder, Hyperliquid.request, tryCatch, bind.
  destruct (fetch (baseUrl ++ "/orders/" ++ id) Hyperliquid.DELETE w)
    as [f w1]; cbn [fst snd outcome world calls].
  destruct (Request.makeRequest (baseUrl ++ "/orders/" ++ id) f)
    as [d | t]; cbn [outcome world calls]; [reflexivity |].
  destruct (handleError_throws t "Failed to cancel order") as (x & ->).
  reflexivity.
Qed.

End Requests.

(** X21: whatever the base URL and the order id, a 404 answer to the DELETE
    of [cancelOrder] comes out as InvalidOrderError, never as ExchangeError
    with code NOT_FOUND: the URL it builds always contains [/orders/].  The
    message is the reply's error text, or 'Order not found'. *)
Theorem cancelOrder_unknown_order {W : Type} (baseUrl : string)
    (fetch : string -> Hyperliquid.HttpMethod -> W -> Request.Fetched * W)
    (sym id : string) (w w1 : W) (r : Request.Response)
    (data : Request.Body) :
  fetch (baseUrl ++ "/orders/" ++ id) Hyperliquid.DELETE w
    = (Request.Resolves r, w1) ->
  Request.status r = 404%Z -> Request.json r = Request.JsonData data ->
  Hyperliquid.cancelOrder baseUrl fetch sym id w =
    Build_Run
      (Threw (Taxonomy (newInvalidOrderError
                          (orElse (Request.error data) "Order not found"))))
      w1 [].
Proof.
  intros Hfetch Hst Hj.
  rewrite cancelOrder_run, Hfetch; cbn [fst snd].
  unfold Request.makeRequest, Request.inspect.
  rewrite Hst, Hj, andb_false_r.
  change (404 =? 404)%Z with true; cbv iota.
  rewrite (includes_append "/orders/" baseUrl id).
  reflexivity.
Qed.

Lemma cancelOrder_unknown_order_witness :
  Hyperliquid.cancelOrder "https://api.hyperliquid.io/v1"
      TestExchange.notFound "BTC-USDT" "non-existent-id"
      TestExchange.empty =
    Build_Run (Threw (Taxonomy (newInvalidOrderError "Order not found")))
              TestExchange.empty [].
Proof.
  refine (cancelOrder_unknown_order "https://api.hyperliquid.io/v1"
            TestExchange.notFound "BTC-USDT" "non-existent-id"
            TestExchange.empty TestExchange.empty _
            {| Request.error := Some "Order not found";
               Request.code := Some "NOT_FOUND" |}
            eq_refl eq_refl eq_refl).
Defined.

(** X22: [cancelOrder] sends exactly one request, and it never answers
    [false]: it returns [true], or it fails with an instance of one of the
    four classes. *)
Theorem cancelOrder_true_or_taxonomy {W : Type} (baseUrl : string)
    (fetch : string -> Hyperliquid.HttpMethod -> W -> Request.Fetched * W)
    (sym id : string) (w : W) :
  world (Hyperliquid.cancelOrder baseUrl fetch sym id w) =
    snd (fetch (baseUrl ++ "/orders/" ++ id) Hyperliquid.DELETE w) /\
  (outcome (Hyperliquid.cancelOrder baseUrl fetch sym id w) = Returned true
   \/ exists e : TaxonomyError,
        outcome (Hyperliquid.cancelOrder baseUrl fetch sym id w)
          = Threw (Taxonomy e)).
Proof.
  rewrite cancelOrder_run; cbn [world outcome].
  split; [reflexivity |].
  destruct (Request.makeRequest _ _) as [d | t]; [left; reflexivity |].
  destruct (handleError_throws t "Failed to cancel order") as (x & ->).
  right; exists x; reflexivity.
Qed.

(** Closing the resting order at market when the exchange answers the
    DELETE with a 404: the adapter's InvalidOrderError ends the call and
    nothing is submitted. *)
Lemma closeOrder_cancel_failure_witness :
  exists t : TaxonomyError,
    BaseExchange.handleError
      (Taxonomy (newInvalidOrderError "Order not found"))
      "Failed to close order at market price" = Threw (Taxonomy t) /\
    BaseExchange.closeOrderMarket TestExchange.createOrder
        (TestExchange.getOrder
           (Some (TestExchange.restingOrder (Some "42") 0.1%float)))
        (Hyperliquid.cancelOrder "https://api.hyperliquid.io/v1"
           TestExchange.notFound)
        "BTC-USDT" "42" TestExchange.empty =
      Build_Run (Threw (Taxonomy t)) TestExchange.empty
                [CallGetOrder "BTC-USDT" "42";
                 CallCancelOrder "BTC-USDT" "42"].
Proof.
  refine (proj1 (closeOrder_cancel_failure TestExchange.createOrder
                   (TestExchange.getOrder
                      (Some (TestExchange.restingOrder (Some "42")
                               0.1%float)))
                   (Hyperliquid.cancelOrder "https://api.hyperliquid.io/v1"
                      TestExchange.notFound)
                   "BTC-USDT" "42" 51000%float
                   TestExchange.empty TestExchange.empty TestExchange.empty
                   (TestExchange.restingOrder (Some "42") 0.1%float)
                   (Taxonomy (newInvalidOrderError "Order not found"))
                   [] [] eq_refl _ eq_refl)).
  exists "42"; split; [reflexivity | discriminate].
Defined.

(** ** Modifying an order *)

Lemma bind_ext {W A B} (m : M W A) (k k' : A -> M W B) (w : W) :
  (forall a w', k a w' = k' a w') -> bind m k w = bind m k' w.
Proof.
  intros H; unfold bind.
  destruct (outcome (m w)); [rewrite H |]; reflexivity.
Qed.

Lemma tryCatch_ext {W A} (m m' : M W A) (h : Thrown -> M W A) (w : W) :
  m w = m' w -> tryCatch m h w = tryCatch m' h w.
Proof. intros H; unfold tryCatch; rewrite H; reflexivity. Qed.

(** X23: [modifyOrder] cannot change the symbol, the side or the type of
    an order: two patches whose quantity, price and timeInForce properties
    are the same (absent from both, or present in both with the same
    value, [undefined] included) have the same effect, whatever they say
    about the rest. *)
Theorem modifyOrder_ignores_symbol_side_type {W : Type}
    (numberToString : float -> string)
    (getTicker : string -> M W Ticker) (getBalances : M W (list Balance))
    (getOrder : string -> string -> M W Order)
    (putOrder : string -> Order -> M W Order)
    (sym id : string) (patch patch' : Partial.OrderParams) (w : W) :
  Partial.quantity patch = Partial.quantity patch' ->
  Partial.price patch = Partial.price patch' ->
  Partial.timeInForce patch = Partial.timeInForce patch' ->
  Hyperliquid.modifyOrder numberToString getTicker getBalances getOrder
      putOrder sym id patch w =
    Hyperliquid.modifyOrder numberToString getTicker getBalances getOrder
      putOrder sym id patch' w.
Proof.
  intros Hq Hp Ht.
  unfold Hyperliquid.modifyOrder.
  apply tryCatch_ext, bind_ext; intros existing w'.
  assert (Hsame : Hyperliquid.updatedParams existing patch
                  = Hyperliquid.updatedParams existing patch')
    by (unfold Hyperliquid.updatedParams; rewrite Hq, Hp, Ht; reflexivity).
  rewrite Hsame; reflexivity.
Qed.

(** Asking for another pair and side along with a new quantity changes
    the quantity only. *)
Lemma modifyOrder_ignores_symbol_side_type_witness :
  Hyperliquid.modifyOrder TestExchange.numberToString
      TestExchange.getTicker TestExchange.getBalances
      TestExchange.foundOrder TestExchange.putOrder "BTC-USDT" "42"
      {| Partial.symbol := Some (Some "ETH-USDT");
         Partial.side := Some (Some "sell");
         Partial.type := Some (Some "market");
         Partial.quantity := Some (Some 0.2%float);
         Partial.price := None; Partial.timeInForce := None |}
      TestExchange.empty =
    Hyperliquid.modifyOrder TestExchange.numberToString
      TestExchange.getTicker TestExchange.getBalances
      TestExchange.foundOrder TestExchange.putOrder "BTC-USDT" "42"
      {| Partial.symbol := None; Partial.side := None;
         Partial.type := None;
         Partial.quantity := Some (Some 0.2%float);
         Partial.price := None; Partial.timeInForce := None |}
      TestExchange.empty.
Proof.
  apply (modifyOrder_ignores_symbol_side_type TestExchange.numberToString
           TestExchange.getTicker TestExchange.getBalances
           TestExchange.foundOrder TestExchange.putOrder "BTC-USDT" "42"
           {| Partial.symbol := Some (Some "ETH-USDT");
              Partial.side := Some (Some "sell");
              Partial.type := Some (Some "market");
              Partial.quantity := Some (Some 0.2%float);
              Partial.price := None; Partial.timeInForce := None |}
           {| Partial.symbol := None; Partial.side := None;
              Partial.type := None;
              Partial.quantity := Some (Some 0.2%float);
              Partial.price := None; Partial.timeInForce := None |}
           TestExchange.empty);
    reflexivity.
Defined.

(** X24: a patch that has a quantity property whose value is not above 0
    (zero, negative, NaN, or [undefined]) is refused before anything is
    sent: when the existing order is found, with its symbol, side and
    type, [modifyOrder] fails with the InvalidOrderError 'Quantity must be
    greater than 0', and the exchange is left in the state the lookup
    produced. *)
Theorem modifyOrder_rejects_bad_quantity {W : Type}
    (numberToString : float -> string)
    (getTicker : string -> M W Ticker) (getBalances : M W (list Balance))
    (getOrder : string -> string -> M W Order)
    (putOrder : string -> Order -> M W Order)
    (sym id : string) (patch : Partial.OrderParams) (w w1 : W)
    (existing : Order) (value : option float) (t1 : list Event) :
  getOrder sym id w = Build_Run (Returned existing) w1 t1 ->
  isPresent (symbol existing) -> isPresent (side existing) ->
  isPresent (type existing) ->
  Partial.quantity patch = Some value ->
  (forall q, value = Some q -> PrimFloat.ltb 0%float q = false) ->
  Hyperliquid.modifyOrder numberToString getTicker getBalances getOrder
      putOrder sym id patch w =
    Build_Run
      (Threw (Taxonomy (newInvalidOrderError
                          "Quantity must be greater than 0")))
      w1 t1.
Proof.
  intros Hget Hsym Hside Hty Hq Hbad.
  unfold Hyperliquid.modifyOrder.
  assert (Hrun :
    bind (getOrder sym id)
      (fun existingOrder =>
         bind (BaseExchange.validateOrder numberToString getTicker
                 getBalances
                 (Hyperliquid.updatedParams existingOrder patch)
                 {| BaseExchange.skipBalanceCheck := Some true |})
              (fun _ => putOrder id
                          (Hyperliquid.updatedParams existingOrder patch)))
      w =
    Build_Run
      (Threw (Taxonomy (newInvalidOrderError
                          "Quantity must be greater than 0")))
      w1 t1).
  { rewrite (bind_returned _ _ _ _ _ _ Hget).
    rewrite (bind_threw _ _ _ _ _ _
               (quantity_check numberToString getTicker getBalances
                  (Hyperliquid.updatedParams existing patch)
                  {| BaseExchange.skipBalanceCheck := Some true |} w1
                  Hsym Hside Hty
                  ltac:(cbn; rewrite Hq; cbn;
                        destruct value as [q |];
                          [exact (rejected_number q (Hbad q eq_refl))
                          | exact I]))).
    cbn [outcome world calls]. rewrite app_nil_r; reflexivity. }
  rewrite (tryCatch_threw _ _ _ _ _ _ Hrun).
  cbn. rewrite app_nil_r; reflexivity.
Qed.

(** The modification of the test suite: quantity -1. *)
Lemma modifyOrder_rejects_bad_quantity_witness :
  Hyperliquid.modifyOrder TestExchange.numberToString
      TestExchange.getTicker TestExchange.getBalances
      TestExchange.foundOrder TestExchange.putOrder "BTC-USDT" "42"
      {| Partial.symbol := None; Partial.side := None;
         Partial.type := None;
         Partial.quantity := Some (Some (-1)%float);
         Partial.price := None; Partial.timeInForce := None |}
      TestExchange.empty =
    Build_Run
      (Threw (Taxonomy (newInvalidOrderError
                          "Quantity must be greater than 0")))
      TestExchange.empty [].
Proof.
  refine (modifyOrder_rejects_bad_quantity TestExchange.numberToString
            TestExchange.getTicker TestExchange.getBalances
            TestExchange.foundOrder TestExchange.putOrder "BTC-USDT" "42"
            {| Partial.symbol := None; Partial.side := None;
               Partial.type := None;
               Partial.quantity := Some (Some (-1)%float);
               Partial.price := None; Partial.timeInForce := None |}
            TestExchange.empty TestExchange.empty
            (TestExchange.restingOrder (Some "42") 0.1%float)
            (Some (-1)%float) [] eq_refl _ _ _ eq_refl _).
  - exists "BTC-USDT"; split; [reflexivity | discriminate].
  - exists "buy"; split; [reflexivity | discriminate].
  - exists "limit"; split; [reflexivity | discriminate].
  - intros q [= <-]; reflexivity.
Defined.

(** ** Orders from the wire *)

Lemma lowerChar_twice (c : ascii) : lowerChar (lowerChar c) = lowerChar c.
Proof. destruct c as [[] [] [] [] [] [] [] []]; reflexivity. Qed.

Lemma upperChar_twice (c : ascii) : upperChar (upperChar c) = upperChar c.
Proof. destruct c as [[] [] [] [] [] [] [] []]; reflexivity. Qed.

Lemma toLowerCase_twice (s : string) : isLowerCase (toLowerCase s).
Proof.
  unfold isLowerCase; induction s as [| c r IH]; [reflexivity |].
  cbn [toLowerCase]; rewrite lowerChar_twice, IH; reflexivity.
Qed.

Lemma toUpperCase_twice (s : string) : isUpperCase (toUpperCase s).
Proof.
  unfold isUpperCase; induction s as [| c r IH]; [reflexivity |].
  cbn [toUpperCase]; rewrite upperChar_twice, IH; reflexivity.
Qed.

Lemma transformOrder_returned (parseFloat : option string -> float)
    (raw : Hyperliquid.Wire.Order) (o : Order) :
  Hyperliquid.transformOrder parseFloat raw = Returned o ->
  exists sd ty st,
    Hyperliquid.Wire.side raw = Some sd /\
    Hyperliquid.Wire.type raw = Some ty /\
    Hyperliquid.Wire.status raw = Some st /\
    side o = Some (toLowerCase sd) /\
    type o = Some (toLowerCase ty) /\
    status o = toLowerCase st /\
    timeInForce o =
      Some (toUpperCase (orElse (Hyperliquid.Wire.timeInForce raw) "GTC")) /\
    price o =
      (if toLowerCase ty =? "market" then None
       else Some (parseFloat
                    (Some (orElse (Hyperliquid.Wire.price raw) "0")))).
Proof.
  unfold Hyperliquid.transformOrder.
  destruct (Hyperliquid.Wire.side raw) as [sd |]; [| discriminate].
  destruct (Hyperliquid.Wire.type raw) as [ty |]; [| discriminate].
  destruct (Hyperliquid.Wire.status raw) as [st |]; [| discriminate].
  intros H; inversion H; subst o.
  exists sd, ty, st; repeat split.
Qed.

(** X25: an order that [transformOrder] produces is in canonical form: its
    side, type and status are in lower case, its time in force is in upper
    case (GTC when the reply has none), and it has a price exactly when
    its type is not market. *)
Theorem transformOrder_canonical (parseFloat : option string -> float)
    (raw : Hyperliquid.Wire.Order) (o : Order) :
  Hyperliquid.transformOrder parseFloat raw = Returned o ->
  (exists sd, side o = Some sd /\ isLowerCase sd) /\
  (exists ty, type o = Some ty /\ isLowerCase ty) /\
  isLowerCase (status o) /\
  (exists tif, timeInForce o = Some tif /\ isUpperCase tif) /\
  (Hyperliquid.Wire.timeInForce raw = None ->
   timeInForce o = Some "GTC") /\
  (price o = None <-> type o = Some "market").
Proof.
  intros H.
  destruct (transformOrder_returned parseFloat raw o H)
    as (sd & ty & st & _ & _ & _ & Hsd & Hty & Hst & Htif & Hprice).
  split; [exists (toLowerCase sd); split;
          [exact Hsd | apply toLowerCase_twice] |].
  split; [exists (toLowerCase ty); split;
          [exact Hty | apply toLowerCase_twice] |].
  split; [rewrite Hst; apply toLowerCase_twice |].
  split; [eexists; split; [exact Htif | apply toUpperCase_twice] |].
  split; [intros Hnone; rewrite Htif, Hnone; reflexivity |].
  rewrite Hprice, Hty.
  destruct (toLowerCase ty =? "market") eqn:E.
  - apply String.eqb_eq in E; rewrite E; tauto.
  - apply String.eqb_neq in E.
    split; [discriminate | intros Hm; inversion Hm; contradiction].
Qed.

Lemma transformOrder_canonical_witness :
  (exists sd, Some "buy" = Some sd /\ isLowerCase sd) /\
  (exists ty, Some "limit" = Some ty /\ isLowerCase ty) /\
  isLowerCase "new" /\
  (exists tif, Some "GTC" = Some tif /\ isUpperCase tif) /\
  (Some "gtc" = None -> Some "GTC" = Some "GTC") /\
  (Some 50000%float = None <-> Some "limit" = Some "market").
Proof.
  exact (transformOrder_canonical TestExchange.parseFloat
           TestExchange.wireOrder _ eq_refl).
Defined.

(** X26: for an order that came through [transformOrder], the closers
    reverse the side whatever case the exchange wrote it in: the close
    order sells exactly when the reply's side is buy when lower-cased, and
    buys otherwise. *)
Theorem transformOrder_close_side (parseFloat : option string -> float)
    (raw : Hyperliquid.Wire.Order) (o : Order) (sd : string)
    (limitPrice : float) :
  Hyperliquid.transformOrder parseFloat raw = Returned o ->
  Hyperliquid.Wire.side raw = Some sd ->
  side (BaseExchange.marketCloseParams o) =
    Some (if toLowerCase sd =? "buy" then "sell" else "buy") /\
  side (BaseExchange.limitCloseParams o limitPrice) =
    Some (if toLowerCase sd =? "buy" then "sell" else "buy").
Proof.
  intros H Hraw.
  destruct (transformOrder_returned parseFloat raw o H)
    as (sd' & ty & st & Hsd' & _ & _ & Hsd & _).
  assert (sd' = sd) by congruence; subst sd'.
  unfold BaseExchange.marketCloseParams, BaseExchange.limitCloseParams,
    BaseExchange.reverseSide; cbn [side].
  rewrite Hsd; split; reflexivity.
Qed.

(** The order of the test setup, listed as BUY, is closed with a sell. *)
Lemma transformOrder_close_side_witness :
  exists o,
    Hyperliquid.transformOrder TestExchange.parseFloat
      TestExchange.wireOrder = Returned o /\
    side (BaseExchange.marketCloseParams o) = Some "sell" /\
    side (BaseExchange.limitCloseParams o 51000%float) = Some "sell".
Proof.
  eexists; split; [reflexivity |].
  exact (transformOrder_close_side TestExchange.parseFloat
           TestExchange.wireOrder _ "BUY" 51000%float eq_refl eq_refl).
Defined.

(** X27: for an order that came through [transformOrder] and passes the
    structural checks, side and type are exactly buy or sell and market or
    limit, so the comparisons of the balance check, which take them as
    written, agree with those of the structural checks, which lower-case
    them. *)
Theorem transformed_order_is_written_in_lower_case {W : Type}
    (numberToString : float -> string)
    (getTicker : string -> M W Ticker) (getBalances : M W (list Balance))
    (parseFloat : option string -> float)
    (raw : Hyperliquid.Wire.Order) (o : Order) (w : W) :
  Hyperliquid.transformOrder parseFloat raw = Returned o ->
  outcome (BaseExchange.validateOrder numberToString getTicker getBalances
             o {| BaseExchange.skipBalanceCheck := Some true |} w)
    = Returned tt ->
  (side o = Some "buy" \/ side o = Some "sell") /\
  (type o = Some "market" \/ type o = Some "limit").
Proof.
  intros H Hpass.
  destruct (transformOrder_returned parseFloat raw o H)
    as (sd & ty & st & _ & _ & _ & Hsd & Hty & _).
  destruct (passes_structure _ _ _ _ _ Hpass) as (sym' & sd' & ty' & q & Es).
  destruct (structure_passed _ _ _ _ _ Es)
    as (_ & (Hsd' & Hside) & (Hty' & Htype) & _).
  assert (sd' = toLowerCase sd) by congruence.
  assert (ty' = toLowerCase ty) by congruence.
  subst sd' ty'.
  rewrite (toLowerCase_twice sd) in Hside.
  rewrite (toLowerCase_twice ty) in Htype.
  rewrite Hsd, Hty.
  split; [destruct Hside as [-> | ->] | destruct Htype as [-> | ->]];
    tauto.
Qed.

Lemma transformed_order_is_written_in_lower_case_witness :
  (Some "buy" = Some "buy" \/ Some "buy" = Some "sell") /\
  (Some "limit" = Some "market" \/ Some "limit" = Some "limit").
Proof.
  exact (transformed_order_is_written_in_lower_case
           TestExchange.numberToString TestExchange.getTicker
           TestExchange.getBalances TestExchange.parseFloat
           TestExchange.wireOrder _ TestExchange.empty eq_refl eq_refl).
Defined.

(** ** Submitting an order *)

(** X28: Hyperliquid's [createOrder] submits nothing that fails validation:
    a failure of [validateOrder] is the failure of [createOrder], in the
    same state and after the same calls; and an order for which
    [createOrder] returns had a non-empty symbol, a valid side and type, a
    quantity above 0 and, if it is a limit order, a price above 0. *)
Theorem createOrder_submits_only_valid_orders {W : Type}
    (numberToString : float -> string)
    (getTicker : string -> M W Ticker) (getBalances : M W (list Balance))
    (postOrder : OrderParams -> M W Order)
    (params : OrderParams) (w : W) :
  (forall t w1 t1,
      BaseExchange.validateOrder numberToString getTicker getBalances
          params BaseExchange.defaultOptions w =
        Build_Run (Threw t) w1 t1 ->
      Hyperliquid.createOrder numberToString getTicker getBalances
          postOrder params w = Build_Run (Threw t) w1 t1) /\
  (forall o,
      outcome (Hyperliquid.createOrder numberToString getTicker getBalances
                 postOrder params w) = Returned o ->
      isPresent (symbol params) /\
      (exists sd, side params = Some sd /\
                  (toLowerCase sd = "buy" \/ toLowerCase sd = "sell")) /\
      (exists ty, type params = Some ty /\
                  (toLowerCase ty = "market" \/ toLowerCase ty = "limit") /\
                  (toLowerCase ty = "limit" ->
                   exists p, price params = Some p /\
                             PrimFloat.ltb 0%float p = true)) /\
      (exists q, quantity params = Some q /\
                 PrimFloat.ltb 0%float q = true)).
Proof.
  split.
  - intros t w1 t1 Hv; unfold Hyperliquid.createOrder.
    apply (bind_threw _ _ _ _ _ _ Hv).
  - intros o; unfold Hyperliquid.createOrder, bind.
    rewrite validateOrder_structure.
    destruct (structure params) as [msg | [[[sym sd] ty] q]] eqn:Es;
      [discriminate |].
    intros _.
    destruct (structure_passed params sym sd ty q Es)
      as ((Hsym & Hne) & (Hsd & Hside) & (Hty & Htype) & (Hq & Hpos) & Hlim).
    split; [exists sym; split; assumption |].
    split; [exists sd; split; assumption |].
    split; [exists ty; repeat split; assumption |].
    exists q; split; assumption.
Qed.

(** The order with quantity 0 of the test suite is not submitted. *)
Lemma createOrder_submits_only_valid_orders_witness :
  Hyperliquid.createOrder TestExchange.numberToString
      TestExchange.getTicker TestExchange.getBalances
      TestExchange.postOrder
      {| symbol := Some "BTC-USDT"; side := Some "buy";
         type := Some "market"; quantity := Some 0%float;
         price := None; timeInForce := None |} TestExchange.empty =
    Build_Run
      (Threw (Taxonomy (newInvalidOrderError
                          "Quantity must be greater than 0")))
      TestExchange.empty [].
Proof.
  apply (proj1 (createOrder_submits_only_valid_orders
                  TestExchange.numberToString TestExchange.getTicker
                  TestExchange.getBalances TestExchange.postOrder
                  {| symbol := Some "BTC-USDT"; side := Some "buy";
                     type := Some "market"; quantity := Some 0%float;
                     price := None; timeInForce := None |}
                  TestExchange.empty)).
  reflexivity.
Defined.

(** ** The submission of a close order *)

(** X29: once the order is fetched and cancelled, a rejection of
    [createOrder] is the rejection of the closer, as it is: the promise is
    returned without being awaited, so the [catch] clause and
    [handleError] do not see it, even when it is not one of the four
    classes.  The cancellation has happened by then. *)
Theorem closeOrder_submission_failure_is_not_normalized {W : Type}
    (createOrder : OrderParams -> M W Order)
    (getOrder : string -> string -> M W (option Order))
    (cancelOrder : string -> string -> M W bool)
    (sym id : string) (limitPrice : float) (w w1 w2 : W) (order : Order)
    (done : bool) (t1 t2 : list Event) :
  getOrder sym id w = Build_Run (Returned (Some order)) w1 t1 ->
  (exists i, orderId order = Some i /\ i <> "") ->
  cancelOrder sym id w1 = Build_Run (Returned done) w2 t2 ->
  (forall e w3 t3,
      createOrder (BaseExchange.marketCloseParams order) w2 =
        Build_Run (Threw e) w3 t3 ->
      BaseExchange.closeOrderMarket createOrder getOrder cancelOrder
          sym id w =
        Build_Run (Threw e) w3
          (CallGetOrder sym id :: t1 ++ CallCancelOrder sym id :: t2 ++
           CallCreateOrder (BaseExchange.marketCloseParams order) :: t3)) /\
  (forall e w3 t3,
      createOrder (BaseExchange.limitCloseParams order limitPrice) w2 =
        Build_Run (Threw e) w3 t3 ->
      BaseExchange.closeOrderLimit createOrder getOrder cancelOrder
          sym id limitPrice w =
        Build_Run (Threw e) w3
          (CallGetOrder sym id :: t1 ++ CallCancelOrder sym id :: t2 ++
           CallCreateOrder (BaseExchange.limitCloseParams order limitPrice)
           :: t3)).
Proof.
  intros Hget Hid Hcancel; split; intros e w3 t3 Hcreate.
  - unfold BaseExchange.closeOrderMarket.
    rewrite (submit_after_cancel createOrder getOrder cancelOrder
               BaseExchange.marketCloseParams _ _ _ _ _ _ _ _ _ _
               Hget (nonempty_id _ Hid) Hcancel), Hcreate.
    reflexivity.
  - unfold BaseExchange.closeOrderLimit.
    rewrite (submit_after_cancel createOrder getOrder cancelOrder
               (fun o => BaseExchange.limitCloseParams o limitPrice)
               _ _ _ _ _ _ _ _ _ _
               Hget (nonempty_id _ Hid) Hcancel), Hcreate.
    reflexivity.
Qed.

(** The resting order is cancelled, the submission is dropped, and the
    caller sees the plain [Error]. *)
Lemma closeOrder_submission_failure_is_not_normalized_witness :
  BaseExchange.closeOrderMarket TestExchange.droppedCreate
      (TestExchange.getOrder
         (Some (TestExchange.restingOrder (Some "42") 0.1%float)))
      TestExchange.cancelOrder "BTC-USDT" "42" TestExchange.empty =
    Build_Run (Threw (OtherError "socket hang up" None))
      {| TestExchange.cancelled := ["42"]; TestExchange.submitted := [] |}
      [ CallGetOrder "BTC-USDT" "42"; CallCancelOrder "BTC-USDT" "42";
        CallCreateOrder
          {| symbol := Some "BTC-USDT"; side := Some "sell";
             type := Some "market"; quantity := Some 0.1%float;
             price := None; timeInForce := None |} ].
Proof.
  refine (proj1 (closeOrder_submission_failure_is_not_normalized
                   TestExchange.droppedCreate
                   (TestExchange.getOrder
                      (Some (TestExchange.restingOrder (Some "42")
                               0.1%float)))
                   TestExchange.cancelOrder "BTC-USDT" "42" 51000%float
                   TestExchange.empty TestExchange.empty
                   {| TestExchange.cancelled := ["42"];
                      TestExchange.submitted := [] |}
                   (TestExchange.restingOrder (Some "42") 0.1%float)
                   true [] [] eq_refl _ eq_refl)
                (OtherError "socket hang up" None)
                {| TestExchange.cancelled := ["42"];
                   TestExchange.submitted := [] |} [] eq_refl).
  exists "42"; split; [reflexivity | discriminate].
Defined.
